(** * Internet Restriction Checker: a shallow embedding of
    [check_internet_restriction.py] and the properties of its probe battery
    and verdict aggregation.

    Conventions of the embedding.
    - Python [int] is [Z]; Python [float] is IEEE 754 binary64, here the
      primitive type [float] with its primitive operations, so every
      threshold comparison of the script is computed bit for bit.
    - [self.results] is the record [Report]; the methods of
      [InternetRestrictionChecker] are computations in the monad [M], which
      threads the report and an exception: the report survives a raise, as
      the Python object does.
    - The outside world (resolver, sockets, [ping], the HTTP transport, the
      clock) is the record [World]: one answer per call site and loop item.
      Each loop of the script ranges over pairwise distinct items and calls
      the world once per item, so nothing is lost by indexing on the item.
    - [print] is not modelled; only [Exception] subclasses are modelled as
      faults ([KeyboardInterrupt] and [SystemExit] end the process).  The
      exceptions of the model are those of the network, subprocess and file
      calls; a failure of the console itself is outside it. *)

From Stdlib Require Import ZArith List String Ascii Bool Lia.
From Stdlib Require Import Permutation.
From Stdlib Require Import Floats.PrimFloat Numbers.Cyclic.Int63.Uint63.
From Stdlib Require DecimalString.
Import ListNotations.
Open Scope string_scope.
Open Scope Z_scope.

(** ** Python values *)

Module Py.

(** The exceptions the script can meet, by the handler classes it names. *)
Inductive exn : Type :=
| gaierror (msg : string)                 (* socket.gaierror *)
| socket_timeout                          (* socket.timeout *)
| FileNotFoundError
| OSError (msg : string)                  (* any other OSError *)
| TimeoutExpired                          (* subprocess.TimeoutExpired *)
| requests_Timeout                        (* requests.exceptions.Timeout *)
| requests_ConnectionError (msg : string) (* requests.exceptions.ConnectionError *)
| Exception (msg : string).               (* any other Exception *)

(** The classes that appear in an [except] clause of the script. *)
Inductive exn_class : Type :=
| C_gaierror
| C_socket_timeout
| C_socket_error            (* socket.error is OSError *)
| C_FileNotFoundError
| C_TimeoutExpired
| C_requests_Timeout
| C_requests_ConnectionError
| C_Exception.

(** [isinstance e c]: gaierror, socket.timeout, FileNotFoundError and the
    requests exceptions (through RequestException, an IOError) are all
    subclasses of OSError; everything is an Exception. *)
Definition isinstance (e : exn) (c : exn_class) : bool :=
  match c, e with
  | C_Exception, _ => true
  | C_gaierror, gaierror _ => true
  | C_socket_timeout, socket_timeout => true
  | C_FileNotFoundError, FileNotFoundError => true
  | C_TimeoutExpired, TimeoutExpired => true
  | C_requests_Timeout, requests_Timeout => true
  | C_requests_ConnectionError, requests_ConnectionError _ => true
  | C_socket_error, (gaierror _ | socket_timeout | FileNotFoundError | OSError _
                    | requests_Timeout | requests_ConnectionError _) => true
  | _, _ => false
  end.

(** The result of a call: a value or a raised exception. *)
Inductive result (A : Type) : Type :=
| Ok (a : A)
| Raise (e : exn).
Arguments Ok {A} a.
Arguments Raise {A} e.

(** Truthiness of a [str] and of a [float]. *)
Definition truthy_str (s : string) : bool := negb (String.eqb s "").
Definition truthy_float (x : float) : bool := negb (PrimFloat.eqb x 0%float).

(** [needle in s] on strings. *)
Fixpoint contains (needle s : string) : bool :=
  String.prefix needle s ||
  match s with
  | EmptyString => false
  | String _ s' => contains needle s'
  end.

(** [float(z)] for [0 <= z < 2^53], where the conversion is exact; the
    counters of the script are list lengths and stay far below. *)
Definition float_of_int (z : Z) : float := PrimFloat.of_uint63 (Uint63.of_Z z).

(** [str(z)]. *)
Definition str_of_int (z : Z) : string :=
  DecimalString.NilZero.string_of_int (Z.to_int z).

(** [len(l)]. *)
Definition len {A : Type} (l : list A) : Z := Z.of_nat (List.length l).

(** [sum(g)] over a generator of integers. *)
Definition sum (l : list Z) : Z := fold_left Z.add l 0.

End Py.
Import Py.

(** ** The report: [self.results] *)

Record Test : Type := mkTest {
  name : string;
  passed : bool;
  details : string
}.

Record Report : Type := mkReport {
  timestamp : string;
  tests : list Test;
  overall_status : string;
  issues_found : list string
}.

(** ** The monad of the methods: report passing with exceptions *)

Definition M (A : Type) : Type := Report -> result A * Report.

Definition ret {A : Type} (a : A) : M A := fun r => (Ok a, r).

Definition raise {A : Type} (e : exn) : M A := fun r => (Raise e, r).

Definition bind {A B : Type} (m : M A) (k : A -> M B) : M B :=
  fun r =>
    match m r with
    | (Ok a, r') => k a r'
    | (Raise e, r') => (Raise e, r')
    end.

(** A call to the world: it answers or raises, and leaves the report alone. *)
Definition call {A : Type} (x : result A) : M A := fun r => (x, r).

(** [try: body except ...: handler(e)]; a handler re-raises what its
    [except] clauses do not name. *)
Definition try_except {A : Type} (body : M A) (handler : exn -> M A) : M A :=
  fun r =>
    match body r with
    | (Ok a, r') => (Ok a, r')
    | (Raise e, r') => handler e r'
    end.

Declare Scope py_scope.
Delimit Scope py_scope with py.
Notation "x <- m ;; k" := (bind m (fun x => k))
  (at level 61, m at next level, right associativity) : py_scope.
Notation "m ;; k" := (bind m (fun _ => k))
  (at level 61, right associativity) : py_scope.
Open Scope py_scope.

(** [for x in xs: acc = body(x, acc)], the loop variables carried in [acc]. *)
Fixpoint for_each {A S : Type} (xs : list A) (body : A -> S -> M S) (acc : S) : M S :=
  match xs with
  | [] => ret acc
  | x :: xs' => acc' <- body x acc ;; for_each xs' body acc'
  end.

(** ** The world *)

Record CompletedProcess : Type := mkCompleted {
  returncode : Z;
  stdout : string
}.

Record World : Type := mkWorld {
  REQUESTS_AVAILABLE : bool;
  sys_platform : string;
  now_isoformat : string;
  (* socket.gethostbyname(domain) in check_dns_resolution *)
  dns_resolution_lookup : string -> result string;
  (* socket.gethostbyname(domain) in check_dns_against_blocked_domains *)
  blocked_domains_lookup : string -> result string;
  (* socket creation, connect_ex((host, port)) and close *)
  port_connect_ex : Z -> string -> result Z;
  (* requests.get(url, timeout=10): status code and elapsed seconds *)
  response_time_get : string -> result (Z * float);
  (* subprocess.run(args, ...) in check_mtu_size *)
  mtu_ping : list string -> result CompletedProcess;
  (* socket.gethostbyname("example.com") in the iteration of dns_ip *)
  dns_servers_lookup : string -> result string;
  (* subprocess.run(args, ...) in check_packet_loss *)
  packet_loss_ping : list string -> result CompletedProcess;
  (* requests.get(url, timeout=10) in check_http_vs_https *)
  dpi_get : string -> result (Z * float);
  (* format(x, ".2f") *)
  format_2f : float -> string
}.

(** ** class InternetRestrictionChecker *)

(** [__init__] *)
Definition init (w : World) : Report :=
  {| timestamp := now_isoformat w;
     tests := [];
     overall_status := "unknown";
     issues_found := [] |}.

Definition add_result (test_name : string) (passed : bool) (details : string) : M unit :=
  fun r =>
    let r1 := {| timestamp := timestamp r;
                 tests := tests r ++ [mkTest test_name passed details];
                 overall_status := overall_status r;
                 issues_found := issues_found r |} in
    if negb passed then
      (Ok tt, {| timestamp := timestamp r1;
                 tests := tests r1;
                 overall_status := overall_status r1;
                 issues_found := issues_found r1 ++ [test_name] |})
    else (Ok tt, r1).

Definition dns_resolution_domains : list (string * string) :=
  [ ("google.com", "8.8.8.8");
    ("cloudflare.com", "1.1.1.1");
    ("github.com", "8.8.8.8") ].

(** The body of the loop of [check_dns_resolution]; [all_passed] is the
    loop-carried variable. *)
Definition dns_resolution_step (w : World) (item : string * string) (all_passed : bool)
  : M bool :=
  let '(domain, _) := item in
  try_except
    (addr <- call (dns_resolution_lookup w domain) ;;
     if truthy_str addr then ret all_passed else ret false)
    (fun e =>
       if isinstance e C_gaierror then ret false
       else if isinstance e C_socket_timeout then ret false
       else raise e).

Definition check_dns_resolution (w : World) : M bool :=
  all_passed <- for_each dns_resolution_domains (dns_resolution_step w) true ;;
  add_result "DNS Resolution" all_passed
    (if all_passed then "All common domains resolved successfully"
     else "Some domains failed to resolve") ;;
  ret all_passed.

Definition blocked_test_domains : list string :=
  [ "google.com"; "facebook.com"; "youtube.com"; "twitter.com";
    "instagram.com"; "tiktok.com"; "whatsapp.com"; "telegram.org";
    "netflix.com"; "reddit.com" ].

(** The body of the loop of [check_dns_against_blocked_domains]; the
    loop-carried variables are [(blocked_count, accessible_count)]. *)
Definition blocked_domains_step (w : World) (domain : string) (counts : Z * Z)
  : M (Z * Z) :=
  let '(blocked_count, accessible_count) := counts in
  try_except
    (addr <- call (blocked_domains_lookup w domain) ;;
     if truthy_str addr then ret (blocked_count, accessible_count + 1)
     else ret (blocked_count, accessible_count))
    (fun e =>
       if isinstance e C_gaierror then ret (blocked_count + 1, accessible_count)
       else if isinstance e C_socket_timeout then ret (blocked_count + 1, accessible_count)
       else raise e).

Definition check_dns_against_blocked_domains (w : World) : M bool :=
  counts <- for_each blocked_test_domains (blocked_domains_step w) (0, 0) ;;
  let '(blocked_count, accessible_count) := counts in
  let is_restricted :=
    PrimFloat.ltb (PrimFloat.mul (float_of_int (len blocked_test_domains)) 0.5%float)
                  (float_of_int blocked_count) in
  let status := negb is_restricted in
  add_result "Domain Accessibility" status
    (str_of_int accessible_count ++ "/" ++ str_of_int (len blocked_test_domains)
      ++ " domains accessible, " ++ str_of_int blocked_count ++ " blocked") ;;
  ret status.

Definition ports_to_check : list (Z * string * string) :=
  [ (443, "HTTPS", "google.com");
    (80, "HTTP", "google.com");
    (443, "HTTPS", "cloudflare.com");
    (443, "HTTPS", "github.com");
    (443, "HTTPS", "api.github.com") ].

Definition port_connectivity_step (w : World) (item : Z * string * string)
  (all_passed : bool) : M bool :=
  let '(port, _, host) := item in
  try_except
    (result <- call (port_connect_ex w port host) ;;
     if result =? 0 then ret all_passed else ret false)
    (fun e =>
       if isinstance e C_socket_timeout then ret false
       else if isinstance e C_Exception then ret false
       else raise e).

Definition check_port_connectivity (w : World) : M bool :=
  all_passed <- for_each ports_to_check (port_connectivity_step w) true ;;
  add_result "Port Connectivity" all_passed
    (if all_passed then "All tested ports are accessible"
     else "Some ports are blocked") ;;
  ret all_passed.

Definition response_time_urls : list string :=
  [ "https://httpbin.org/get"; "https://api.github.com" ].

(** The body of the loop of [check_http_response_time]; the loop-carried
    variables are [(all_passed, suspicious_slow)]. *)
Definition response_time_step (w : World) (url : string) (flags : bool * bool)
  : M (bool * bool) :=
  let '(all_passed, suspicious_slow) := flags in
  try_except
    (response <- call (response_time_get w url) ;;
     let elapsed := snd response in
     if PrimFloat.ltb (float_of_int 5) elapsed
     then ret (all_passed, true)
     else ret (all_passed, suspicious_slow))
    (fun e =>
       if isinstance e C_requests_Timeout then ret (false, suspicious_slow)
       else if isinstance e C_requests_ConnectionError then ret (false, suspicious_slow)
       else if isinstance e C_Exception then ret (false, suspicious_slow)
       else raise e).

Definition check_http_response_time (w : World) : M bool :=
  if negb (REQUESTS_AVAILABLE w) then
    add_result "HTTP Response Time" true "Test skipped (requests not installed)" ;;
    ret true
  else
    flags <- for_each response_time_urls (response_time_step w) (true, false) ;;
    let '(all_passed, suspicious_slow) := flags in
    (if suspicious_slow && all_passed then
       add_result "HTTP Response Time" true "Response times may indicate throttling"
     else
       add_result "HTTP Response Time" all_passed
         (if all_passed then "HTTP responses normal" else "HTTP requests failed")) ;;
    ret all_passed.

Definition mtu_ping_args (w : World) : list string :=
  if String.eqb (sys_platform w) "darwin"
  then ["ping"; "-D"; "-c"; "3"; "-s"; "1400"; "8.8.8.8"]
  else ["ping"; "-c"; "3"; "-s"; "1400"; "-M"; "dont"; "8.8.8.8"].

Definition check_mtu_size (w : World) : M bool :=
  try_except
    (result <- call (mtu_ping w (mtu_ping_args w)) ;;
     if returncode result =? 0 then
       add_result "MTU Check" true "No fragmentation issues detected" ;;
       ret true
     else
       add_result "MTU Check" false "Potential MTU/fragmentation issues" ;;
       ret false)
    (fun e =>
       if isinstance e C_TimeoutExpired then
         add_result "MTU Check" false "Ping timeout" ;;
         ret false
       else if isinstance e C_Exception then
         add_result "MTU Check" true "Test could not be completed" ;;
         ret true
       else raise e).

Definition dns_servers : list (string * string) :=
  [ ("8.8.8.8", "Google DNS");
    ("1.1.1.1", "Cloudflare DNS");
    ("8.8.4.4", "Google DNS Secondary") ].

Definition dns_servers_step (w : World) (item : string * string) (all_passed : bool)
  : M bool :=
  let '(dns_ip, _) := item in
  try_except
    (_ <- call (dns_servers_lookup w dns_ip) ;;
     ret all_passed)
    (fun e =>
       if isinstance e C_socket_error then ret false
       else raise e).

Definition check_dns_servers (w : World) : M bool :=
  all_passed <- for_each dns_servers (dns_servers_step w) true ;;
  add_result "DNS Server Check" all_passed
    (if all_passed then "All tested DNS servers responding"
     else "Some DNS servers not responding") ;;
  ret all_passed.

Definition packet_loss_ping_args : list string := ["ping"; "-c"; "5"; "8.8.8.8"].

Definition check_packet_loss (w : World) : M bool :=
  try_except
    (result <- call (packet_loss_ping w packet_loss_ping_args) ;;
     let output := stdout result in
     if contains "0% packet loss" output || contains "0.0% packet loss" output then
       add_result "Packet Loss" true "Connection stable" ;;
       ret true
     else if contains "100% packet loss" output then
       add_result "Packet Loss" false "Complete packet loss detected" ;;
       ret false
     else
       add_result "Packet Loss" false "Packet loss detected" ;;
       ret false)
    (fun e =>
       if isinstance e C_TimeoutExpired then
         add_result "Packet Loss" false "Ping timeout" ;;
         ret false
       else if isinstance e C_FileNotFoundError then
         add_result "Packet Loss" true "Test skipped (ping not available)" ;;
         ret true
       else if isinstance e C_Exception then
         add_result "Packet Loss" true "Test could not be completed" ;;
         ret true
       else raise e).

Definition test_url_http : string := "http://httpbin.org/get".
Definition test_url_https : string := "https://httpbin.org/get".

(** One timed request of [check_http_vs_https]: the elapsed time, or [None]
    when the request raised. *)
Definition timed_get (w : World) (url : string) : M (option float) :=
  try_except
    (response <- call (dpi_get w url) ;;
     ret (Some (snd response)))
    (fun e => if isinstance e C_Exception then ret None else raise e).

(** The common tail of [check_http_vs_https]: nothing suspicious. *)
Definition no_throttling : M bool :=
  add_result "DPI/Throttling Check" true "No obvious throttling detected" ;;
  ret true.

Definition check_http_vs_https (w : World) : M bool :=
  if negb (REQUESTS_AVAILABLE w) then
    add_result "DPI Check" true "Test skipped" ;;
    ret true
  else
    http_time <- timed_get w test_url_http ;;
    https_time <- timed_get w test_url_https ;;
    match http_time, https_time with
    | Some h, Some s =>
        (* if http_time and https_time: *)
        if truthy_float h && truthy_float s then
          if PrimFloat.ltb (PrimFloat.mul h (float_of_int 3)) s then
            add_result "DPI/Throttling Check" false
              ("HTTPS(" ++ format_2f w s ++ "s) much slower than HTTP("
                ++ format_2f w h ++ "s)") ;;
            ret false
          else no_throttling
        else no_throttling
    | _, _ => no_throttling
    end.

(** [passed_tests >= total_tests * 0.7]; the literal 0.7 denotes the
    binary64 number 0x1.6666666666666p-1. *)
Definition at_least_70_percent (passed_tests total_tests : Z) : bool :=
  PrimFloat.leb
    (PrimFloat.mul (float_of_int total_tests) 0x1.6666666666666p-1%float)
    (float_of_int passed_tests).

Definition calculate_overall_status : M (Z * Z) :=
  fun r =>
    let passed_tests := sum (map (fun _ => 1) (filter passed (tests r))) in
    let total_tests := len (tests r) in
    let status :=
      if passed_tests =? total_tests then "clear"
      else if at_least_70_percent passed_tests total_tests then "partial_restriction"
      else "restricted" in
    (Ok (passed_tests, total_tests),
     {| timestamp := timestamp r;
        tests := tests r;
        overall_status := status;
        issues_found := issues_found r |}).

Definition run_all_checks (w : World) : M Report :=
  check_dns_resolution w ;;
  check_dns_against_blocked_domains w ;;
  check_port_connectivity w ;;
  check_http_response_time w ;;
  check_mtu_size w ;;
  check_dns_servers w ;;
  check_packet_loss w ;;
  check_http_vs_https w ;;
  calculate_overall_status ;;
  fun r => (Ok r, r).

(** The command line and the file system, as [main] sees them. *)
Record Invocation : Type := mkInvocation {
  (* sys.argv *)
  argv : list string;
  (* open(output_file, "w") and json.dump(results, f, indent=2): the file is
     written, or one of the two raises *)
  save_results : Report -> result unit
}.

(** [len(sys.argv) > 1 and sys.argv[1] == "--json"] *)
Definition json_requested (inv : Invocation) : bool :=
  (1 <? len (argv inv)) && String.eqb (nth 1 (argv inv) "") "--json".

(** [main]: the run, the optional saving of the results, and the exit code
    passed to [sys.exit]: 0 when the status is "clear", 1 otherwise.  An
    exception of the run or of the saving ends [main]. *)
Definition main (w : World) (inv : Invocation) : result Z :=
  match run_all_checks w (init w) with
  | (Ok results, _) =>
      match (if json_requested inv then save_results inv results else Ok tt) with
      | Ok _ =>
          if String.eqb (overall_status results) "clear" then Ok 0 else Ok 1
      | Raise e => Raise e
      end
  | (Raise e, _) => Raise e
  end.

(** * Vocabulary of the properties *)

(** What one call of [add_result] does to the report. *)
Definition recorded (test_name : string) (p : bool) (d : string) (r : Report) : Report :=
  {| timestamp := timestamp r;
     tests := tests r ++ [mkTest test_name p d];
     overall_status := overall_status r;
     issues_found := issues_found r ++ (if p then [] else [test_name]) |}.

(** The names of the failed outcomes of a list, in order. *)
Definition failed_names (ts : list Test) : list string :=
  map name (filter (fun t => negb (passed t)) ts).

(** The invariant of the report: the issues are the failed names. *)
Definition issues_consistent (r : Report) : Prop :=
  issues_found r = failed_names (tests r).

(** A sequence of [add_result] calls, each given by its three arguments. *)
Definition add_results (calls : list (string * bool * string)) : M unit :=
  for_each calls (fun '(test_name, p, d) _ => add_result test_name p d) tt.

(** The outcome one call records. *)
Definition outcome_of (c : string * bool * string) : Test :=
  let '(test_name, p, d) := c in mkTest test_name p d.

(** The status [calculate_overall_status] writes, as a function of the
    outcome list. *)
Definition aggregate (ts : list Test) : string :=
  overall_status (snd (calculate_overall_status (mkReport "" ts "unknown" []))).

(** The number of outcomes up to which the binary64 threshold test is
    compared, pair by pair, with its reading in integers. *)
Definition exact_bound : Z := 1000.

(** [f] holds on [lo], [lo + 1], ..., [lo + n - 1]. *)
Fixpoint Z_forall_from (f : Z -> bool) (lo : Z) (n : nat) : bool :=
  match n with
  | O => true
  | S k => f lo && Z_forall_from f (lo + 1) k
  end.

(** The binary64 test [p >= t * 0.7] and [7 * t <= 10 * p] give the same
    answer, here and on every [0 <= p <= t <= bound]. *)
Definition threshold_agrees (p t : Z) : bool :=
  Bool.eqb (at_least_70_percent p t) (7 * t <=? 10 * p).

Definition threshold_table (bound : Z) : bool :=
  Z_forall_from
    (fun t => Z_forall_from (fun p => threshold_agrees p t) 0 (Z.to_nat (t + 1)))
    0 (Z.to_nat (bound + 1)).

(** What one lookup of the Domain Accessibility probe amounts to: a
    resolution failure (the two exceptions the probe handles), a returned
    address, a returned address that is also non-empty. *)
Definition resolution_failed (w : World) (domain : string) : bool :=
  match blocked_domains_lookup w domain with
  | Raise e => isinstance e C_gaierror || isinstance e C_socket_timeout
  | Ok _ => false
  end.

Definition resolved (w : World) (domain : string) : bool :=
  match blocked_domains_lookup w domain with
  | Ok _ => true
  | Raise _ => false
  end.

Definition accessible (w : World) (domain : string) : bool :=
  match blocked_domains_lookup w domain with
  | Ok addr => truthy_str addr
  | Raise _ => false
  end.

(** [blocked_count > len(test_domains) * 0.5], on the ten domains. *)
Definition is_restricted (blocked_count : Z) : bool :=
  PrimFloat.ltb (PrimFloat.mul (float_of_int (len blocked_test_domains)) 0.5%float)
                (float_of_int blocked_count).

(** [probe_records probe test_name fault]: on every report the probe either
    returns its status and has recorded exactly one outcome under
    [test_name] with that status, or lets an exception satisfying [fault]
    escape and has recorded nothing. *)
Definition probe_records (probe : M bool) (test_name : string) (fault : exn -> Prop)
  : Prop :=
  forall r,
    match probe r with
    | (Ok status, r') => exists detail, r' = recorded test_name status detail r
    | (Raise e, r') => r' = r /\ fault e
    end.

(** The faults the handlers of a DNS probe do not name, raised by one of
    its lookups. *)
Definition dns_resolution_fault (w : World) (e : exn) : Prop :=
  exists domain dns_server,
    In (domain, dns_server) dns_resolution_domains
    /\ dns_resolution_lookup w domain = Raise e
    /\ isinstance e C_gaierror = false
    /\ isinstance e C_socket_timeout = false.

Definition blocked_domains_fault (w : World) (e : exn) : Prop :=
  exists domain,
    In domain blocked_test_domains
    /\ blocked_domains_lookup w domain = Raise e
    /\ isinstance e C_gaierror = false
    /\ isinstance e C_socket_timeout = false.

Definition dns_servers_fault (w : World) (e : exn) : Prop :=
  exists dns_ip dns_name,
    In (dns_ip, dns_name) dns_servers
    /\ dns_servers_lookup w dns_ip = Raise e
    /\ isinstance e C_socket_error = false.

(** No fault escapes. *)
Definition no_fault (e : exn) : Prop := False.

(** A connection of Port Connectivity returned 0. *)
Definition port_open (w : World) (item : Z * string * string) : bool :=
  let '(port, _, host) := item in
  match port_connect_ex w port host with
  | Ok result => result =? 0
  | Raise _ => false
  end.

(** A request of HTTP Response Time returned; it took more than 5 s. *)
Definition request_ok (w : World) (url : string) : bool :=
  match response_time_get w url with
  | Ok _ => true
  | Raise _ => false
  end.

Definition request_slow (w : World) (url : string) : bool :=
  match response_time_get w url with
  | Ok response => PrimFloat.ltb 5%float (snd response)
  | Raise _ => false
  end.

(** The name under which the DPI probe records its outcome. *)
Definition dpi_test_name (w : World) : string :=
  if REQUESTS_AVAILABLE w then "DPI/Throttling Check" else "DPI Check".

(** The names of the eight outcomes, in the order of [run_all_checks]. *)
Definition battery_names (w : World) : list string :=
  [ "DNS Resolution"; "Domain Accessibility"; "Port Connectivity";
    "HTTP Response Time"; "MTU Check"; "DNS Server Check"; "Packet Loss";
    dpi_test_name w ].

(** The faults that no [except] clause of the script names: they can only
    come from the lookups of the three DNS probes. *)
Definition unhandled_fault (w : World) (e : exn) : Prop :=
  dns_resolution_fault w e \/ blocked_domains_fault w e \/ dns_servers_fault w e.

(** A lookup of DNS Resolution returned a non-empty address. *)
Definition dns_resolves (w : World) (item : string * string) : bool :=
  match dns_resolution_lookup w (fst item) with
  | Ok addr => truthy_str addr
  | Raise _ => false
  end.

(** A lookup of DNS Resolution raised what the probe does not handle. *)
Definition dns_resolution_escapes (w : World) (item : string * string) : bool :=
  match dns_resolution_lookup w (fst item) with
  | Ok _ => false
  | Raise e => negb (isinstance e C_gaierror || isinstance e C_socket_timeout)
  end.

(** A lookup of Domain Accessibility raised what the probe does not handle. *)
Definition blocked_domains_escapes (w : World) (domain : string) : bool :=
  match blocked_domains_lookup w domain with
  | Ok _ => false
  | Raise e => negb (isinstance e C_gaierror || isinstance e C_socket_timeout)
  end.

(** A lookup of DNS Server Check returned, whatever the address. *)
Definition dns_server_responds (w : World) (item : string * string) : bool :=
  match dns_servers_lookup w (fst item) with
  | Ok _ => true
  | Raise _ => false
  end.

(** A lookup of DNS Server Check raised what the probe does not handle. *)
Definition dns_servers_escapes (w : World) (item : string * string) : bool :=
  match dns_servers_lookup w (fst item) with
  | Ok _ => false
  | Raise e => negb (isinstance e C_socket_error)
  end.

(** The report [r] with the outcomes [new] recorded after its own. *)
Definition extended (r : Report) (new : list Test) : Report :=
  {| timestamp := timestamp r;
     tests := tests r ++ new;
     overall_status := overall_status r;
     issues_found := issues_found r ++ failed_names new |}.

(** The eight probes with the names they record under, in the order
    [run_all_checks] calls them. *)
Definition battery (w : World) : list (string * M bool) :=
  [ ("DNS Resolution", check_dns_resolution w);
    ("Domain Accessibility", check_dns_against_blocked_domains w);
    ("Port Connectivity", check_port_connectivity w);
    ("HTTP Response Time", check_http_response_time w);
    ("MTU Check", check_mtu_size w);
    ("DNS Server Check", check_dns_servers w);
    ("Packet Loss", check_packet_loss w);
    (dpi_test_name w, check_http_vs_https w) ].

(** The probes of a list called one after the other, their return values
    dropped, as in the body of [run_all_checks]. *)
Fixpoint run_battery (probes : list (string * M bool)) : M unit :=
  match probes with
  | [] => ret tt
  | (_, probe) :: rest => probe ;; run_battery rest
  end.

(** A probe records one outcome under [test_name], or raises and records
    nothing. *)
Definition records_outcome (test_name : string) (probe : M bool) : Prop :=
  forall r,
    match probe r with
    | (Ok status, r') =>
        exists detail, r' = recorded test_name status detail r
    | (Raise _, r') => r' = r
    end.

(** What a computation returns or raises does not depend on the report it
    starts from. *)
Definition ignores_report {A : Type} (m : M A) : Prop :=
  forall r1 r2, fst (m r1) = fst (m r2).

(** The status for a battery of eight outcomes of which [issues] failed. *)
Definition status_of_issue_count (issues : nat) : string :=
  match issues with
  | O => "clear"
  | 1%nat | 2%nat => "partial_restriction"
  | _ => "restricted"
  end.

(** * Example worlds and reports *)

(** A report with ten outcomes of which seven passed, and one with six. *)
Definition outcomes_of (flags : list bool) : list Test :=
  map (fun p => mkTest "probe" p "") flags.

Definition seven_of_ten : Report :=
  mkReport "" (outcomes_of [true; true; false; true; true; false; true; true; false; true])
           "unknown" [].

Definition six_of_ten : Report :=
  mkReport "" (outcomes_of [true; false; false; true; true; false; true; true; false; true])
           "unknown" [].

(** A world in which nothing is wrong; the other worlds override single
    answers of it. *)
Definition healthy_world : World :=
  {| REQUESTS_AVAILABLE := true;
     sys_platform := "linux";
     now_isoformat := "2024-01-01T00:00:00";
     dns_resolution_lookup := fun _ => Ok "142.250.0.1";
     blocked_domains_lookup := fun _ => Ok "142.250.0.1";
     port_connect_ex := fun _ _ => Ok 0;
     response_time_get := fun _ => Ok (200, 0.25%float);
     mtu_ping := fun _ => Ok (mkCompleted 0 "3 packets transmitted, 3 received, 0% packet loss");
     dns_servers_lookup := fun _ => Ok "93.184.216.34";
     packet_loss_ping := fun _ => Ok (mkCompleted 0 "5 packets transmitted, 5 received, 0% packet loss, time 4005ms");
     dpi_get := fun _ => Ok (200, 0.25%float);
     format_2f := fun _ => "0.25" |}.

Definition with_packet_loss_ping (w : World) (answer : result CompletedProcess) : World :=
  {| REQUESTS_AVAILABLE := REQUESTS_AVAILABLE w;
     sys_platform := sys_platform w;
     now_isoformat := now_isoformat w;
     dns_resolution_lookup := dns_resolution_lookup w;
     blocked_domains_lookup := blocked_domains_lookup w;
     port_connect_ex := port_connect_ex w;
     response_time_get := response_time_get w;
     mtu_ping := mtu_ping w;
     dns_servers_lookup := dns_servers_lookup w;
     packet_loss_ping := fun _ => answer;
     dpi_get := dpi_get w;
     format_2f := format_2f w |}.

(** The statistics line of Linux [ping] when every packet is lost, and when
    one of five is. *)
Definition total_loss_world : World :=
  with_packet_loss_ping healthy_world
    (Ok (mkCompleted 1 "5 packets transmitted, 0 received, 100% packet loss, time 4094ms")).

Definition partial_loss_world : World :=
  with_packet_loss_ping healthy_world
    (Ok (mkCompleted 0 "5 packets transmitted, 4 received, 20% packet loss, time 4006ms")).

Definition without_requests (w : World) : World :=
  {| REQUESTS_AVAILABLE := false;
     sys_platform := sys_platform w;
     now_isoformat := now_isoformat w;
     dns_resolution_lookup := dns_resolution_lookup w;
     blocked_domains_lookup := blocked_domains_lookup w;
     port_connect_ex := port_connect_ex w;
     response_time_get := response_time_get w;
     mtu_ping := mtu_ping w;
     dns_servers_lookup := dns_servers_lookup w;
     packet_loss_ping := packet_loss_ping w;
     dpi_get := dpi_get w;
     format_2f := format_2f w |}.

Definition with_dpi_get (w : World) (answers : string -> result (Z * float)) : World :=
  {| REQUESTS_AVAILABLE := REQUESTS_AVAILABLE w;
     sys_platform := sys_platform w;
     now_isoformat := now_isoformat w;
     dns_resolution_lookup := dns_resolution_lookup w;
     blocked_domains_lookup := blocked_domains_lookup w;
     port_connect_ex := port_connect_ex w;
     response_time_get := response_time_get w;
     mtu_ping := mtu_ping w;
     dns_servers_lookup := dns_servers_lookup w;
     packet_loss_ping := packet_loss_ping w;
     dpi_get := answers;
     format_2f := format_2f w |}.

Definition with_blocked_domains_lookup (w : World) (answers : string -> result string)
  : World :=
  {| REQUESTS_AVAILABLE := REQUESTS_AVAILABLE w;
     sys_platform := sys_platform w;
     now_isoformat := now_isoformat w;
     dns_resolution_lookup := dns_resolution_lookup w;
     blocked_domains_lookup := answers;
     port_connect_ex := port_connect_ex w;
     response_time_get := response_time_get w;
     mtu_ping := mtu_ping w;
     dns_servers_lookup := dns_servers_lookup w;
     packet_loss_ping := packet_loss_ping w;
     dpi_get := dpi_get w;
     format_2f := format_2f w |}.

(** A resolver that fails for six of the ten domains. *)
Definition six_blocked_world : World :=
  with_blocked_domains_lookup healthy_world
    (fun domain =>
       if existsb (String.eqb domain)
            ["facebook.com"; "youtube.com"; "twitter.com";
             "instagram.com"; "tiktok.com"; "telegram.org"]
       then Raise (gaierror "[Errno -2] Name or service not known")
       else Ok "142.250.0.1").

(** A world whose first lookup raises something that is neither a
    resolution failure nor a timeout. *)
Definition faulty_dns_world : World :=
  {| REQUESTS_AVAILABLE := REQUESTS_AVAILABLE healthy_world;
     sys_platform := sys_platform healthy_world;
     now_isoformat := now_isoformat healthy_world;
     dns_resolution_lookup := fun _ => Raise (Exception "unexpected fault");
     blocked_domains_lookup := blocked_domains_lookup healthy_world;
     port_connect_ex := port_connect_ex healthy_world;
     response_time_get := response_time_get healthy_world;
     mtu_ping := mtu_ping healthy_world;
     dns_servers_lookup := dns_servers_lookup healthy_world;
     packet_loss_ping := packet_loss_ping healthy_world;
     dpi_get := dpi_get healthy_world;
     format_2f := format_2f healthy_world |}.

(** A world whose first HTTPS response takes 6.5 s and carries status 500. *)
Definition slow_response_world : World :=
  {| REQUESTS_AVAILABLE := REQUESTS_AVAILABLE healthy_world;
     sys_platform := sys_platform healthy_world;
     now_isoformat := now_isoformat healthy_world;
     dns_resolution_lookup := dns_resolution_lookup healthy_world;
     blocked_domains_lookup := blocked_domains_lookup healthy_world;
     port_connect_ex := port_connect_ex healthy_world;
     response_time_get :=
       fun url => if String.eqb url "https://httpbin.org/get"
                  then Ok (500, 6.5%float) else Ok (200, 0.25%float);
     mtu_ping := mtu_ping healthy_world;
     dns_servers_lookup := dns_servers_lookup healthy_world;
     packet_loss_ping := packet_loss_ping healthy_world;
     dpi_get := dpi_get healthy_world;
     format_2f := format_2f healthy_world |}.

(** A world in which HTTPS takes 2 s where HTTP takes 0.5 s. *)
Definition slow_https_world : World :=
  with_dpi_get healthy_world
    (fun url => if String.eqb url test_url_https
                then Ok (200, 2%float) else Ok (200, 0.5%float)).

(** [main] called without arguments; called with [--json] on a file system
    that refuses the file. *)
Definition plain_invocation : Invocation :=
  {| argv := ["check_internet_restriction.py"];
     save_results := fun _ => Ok tt |}.

Definition json_invocation_read_only : Invocation :=
  {| argv := ["check_internet_restriction.py"; "--json"];
     save_results := fun _ => Raise (OSError "[Errno 30] Read-only file system") |}.

(** A world in which the connection to port 80 is refused and the last
    connection cannot resolve its host. *)
Definition port_fault_world : World :=
  {| REQUESTS_AVAILABLE := REQUESTS_AVAILABLE healthy_world;
     sys_platform := sys_platform healthy_world;
     now_isoformat := now_isoformat healthy_world;
     dns_resolution_lookup := dns_resolution_lookup healthy_world;
     blocked_domains_lookup := blocked_domains_lookup healthy_world;
     port_connect_ex :=
       fun port host =>
         if port =? 80 then Ok 111
         else if String.eqb host "api.github.com"
         then Raise (gaierror "[Errno -2] Name or service not known")
         else Ok 0;
     response_time_get := response_time_get healthy_world;
     mtu_ping := mtu_ping healthy_world;
     dns_servers_lookup := dns_servers_lookup healthy_world;
     packet_loss_ping := packet_loss_ping healthy_world;
     dpi_get := dpi_get healthy_world;
     format_2f := format_2f healthy_world |}.

(** A world in which the [ping] of the MTU probe does not end in time. *)
Definition mtu_timeout_world : World :=
  {| REQUESTS_AVAILABLE := REQUESTS_AVAILABLE healthy_world;
     sys_platform := sys_platform healthy_world;
     now_isoformat := now_isoformat healthy_world;
     dns_resolution_lookup := dns_resolution_lookup healthy_world;
     blocked_domains_lookup := blocked_domains_lookup healthy_world;
     port_connect_ex := port_connect_ex healthy_world;
     response_time_get := response_time_get healthy_world;
     mtu_ping := fun _ => Raise TimeoutExpired;
     dns_servers_lookup := dns_servers_lookup healthy_world;
     packet_loss_ping := packet_loss_ping healthy_world;
     dpi_get := dpi_get healthy_world;
     format_2f := format_2f healthy_world |}.

(** A world without a [ping] binary for the Packet Loss probe. *)
Definition ping_missing_world : World :=
  with_packet_loss_ping healthy_world (Raise FileNotFoundError).

(** A resolver that answers for nine of the ten accessibility domains and
    raises an OSError that is neither gaierror nor timeout for the last. *)
Definition oserror_lookup_world : World :=
  with_blocked_domains_lookup healthy_world
    (fun domain =>
       if String.eqb domain "reddit.com"
       then Raise (OSError "[Errno 101] Network is unreachable")
       else Ok "142.250.0.1").

(** * Properties *)

(** ** [add_result] and the issues list *)

Lemma add_result_spec test_name p d r :
  add_result test_name p d r = (Ok tt, recorded test_name p d r).
Proof.
  unfold add_result, recorded. destruct p; simpl.
  - rewrite app_nil_r. reflexivity.
  - reflexivity.
Qed.

Lemma failed_names_app ts1 ts2 :
  failed_names (ts1 ++ ts2) = (failed_names ts1 ++ failed_names ts2)%list.
Proof.
  unfold failed_names. rewrite filter_app, map_app. reflexivity.
Qed.

Lemma failed_names_one test_name p d :
  failed_names [mkTest test_name p d] = if p then [] else [test_name].
Proof. destruct p; reflexivity. Qed.

Lemma recorded_consistent test_name p d r :
  issues_consistent r -> issues_consistent (recorded test_name p d r).
Proof.
  unfold issues_consistent. intros H. simpl.
  rewrite failed_names_app, failed_names_one, H. reflexivity.
Qed.

Lemma add_results_spec calls : forall r,
  exists r', add_results calls r = (Ok tt, r')
    /\ tests r' = (tests r ++ map outcome_of calls)%list
    /\ (issues_consistent r -> issues_consistent r').
Proof.
  induction calls as [|[[n p] d] calls IH]; intros r.
  - exists r. simpl. rewrite app_nil_r. repeat split; auto.
  - destruct (IH (recorded n p d r)) as [r' [Hrun [Ht Hi]]].
    exists r'. unfold add_results in *. simpl. unfold bind at 1.
    rewrite add_result_spec. split; [exact Hrun|]. split.
    + rewrite Ht. simpl. rewrite <- app_assoc. reflexivity.
    + intros H. apply Hi, recorded_consistent, H.
Qed.

(** C5: after every sequence of [add_result] calls on a fresh report the
    issues list is exactly the names of the outcomes with [passed = false],
    in recording order, so its length is the number of failed outcomes; the
    outcomes themselves are the calls, in order. *)
Theorem issues_found_after_add_results (w : World) (calls : list (string * bool * string)) :
  exists r,
    add_results calls (init w) = (Ok tt, r)
    /\ tests r = map outcome_of calls
    /\ issues_found r = map name (filter (fun t => negb (passed t)) (tests r))
    /\ List.length (issues_found r)
       = List.length (filter (fun t => negb (passed t)) (tests r)).
Proof.
  destruct (add_results_spec calls (init w)) as [r [Hrun [Ht Hi]]].
  exists r. split; [exact Hrun|]. split; [exact Ht|].
  assert (Hc : issues_consistent r) by (apply Hi; reflexivity).
  split; [exact Hc|].
  rewrite Hc. unfold failed_names. apply length_map.
Qed.

(** ** The verdict aggregator *)

Lemma fold_left_add_ones {A : Type} (l : list A) : forall acc,
  fold_left Z.add (map (fun _ => 1) l) acc = acc + len l.
Proof.
  unfold len. induction l as [|x l IH]; intros acc.
  - simpl. lia.
  - cbn [map fold_left]. rewrite IH. cbn [List.length]. lia.
Qed.

(** [sum(1 for test in tests if test["passed"])] counts the passed outcomes. *)
Lemma sum_ones {A : Type} (l : list A) : sum (map (fun _ => 1) l) = len l.
Proof. unfold sum. rewrite fold_left_add_ones. lia. Qed.

Lemma len_filter_le {A : Type} (f : A -> bool) (l : list A) :
  0 <= len (filter f l) <= len l.
Proof.
  unfold len. pose proof (filter_length_le f l). lia.
Qed.

(** The passed count reaches the total exactly when every outcome passed. *)
Lemma len_filter_all {A : Type} (f : A -> bool) (l : list A) :
  len (filter f l) = len l <-> forallb f l = true.
Proof.
  unfold len. induction l as [|x l IH]; simpl.
  - tauto.
  - pose proof (filter_length_le f l) as Hle.
    destruct (f x); simpl.
    + rewrite <- IH. lia.
    + split; [lia | discriminate].
Qed.

Lemma calculate_overall_status_spec (r : Report) :
  calculate_overall_status r =
    (Ok (len (filter passed (tests r)), len (tests r)),
     {| timestamp := timestamp r;
        tests := tests r;
        overall_status := aggregate (tests r);
        issues_found := issues_found r |}).
Proof.
  unfold aggregate, calculate_overall_status. cbn [snd overall_status tests].
  rewrite sum_ones. reflexivity.
Qed.

Lemma aggregate_unfold (ts : list Test) :
  aggregate ts =
    if len (filter passed ts) =? len ts then "clear"
    else if at_least_70_percent (len (filter passed ts)) (len ts)
         then "partial_restriction"
         else "restricted".
Proof.
  unfold aggregate, calculate_overall_status. cbn [snd overall_status tests].
  rewrite sum_ones. reflexivity.
Qed.

(** *** The threshold in integers

    For totals up to [exact_bound] the floating-point test
    [passed >= total * 0.7] is the integer inequality
    [7 * total <= 10 * passed]; this is checked by running the binary64
    operations on every pair in the range. *)

Lemma Z_forall_from_spec (f : Z -> bool) (n : nat) : forall lo,
  Z_forall_from f lo n = true ->
  forall z, lo <= z < lo + Z.of_nat n -> f z = true.
Proof.
  induction n as [|k IH]; intros lo H z Hz.
  - simpl in Hz. lia.
  - cbn [Z_forall_from] in H. apply andb_true_iff in H as [H0 Hk].
    destruct (Z.eq_dec z lo) as [->|Hne]; [exact H0|].
    apply (IH (lo + 1) Hk). lia.
Qed.

Lemma threshold_table_ok : threshold_table exact_bound = true.
Proof. vm_compute. reflexivity. Qed.

Lemma at_least_70_percent_exact (p t : Z) :
  0 <= p <= t -> t <= exact_bound ->
  at_least_70_percent p t = (7 * t <=? 10 * p).
Proof.
  intros Hp Ht.
  pose proof (Z_forall_from_spec _ _ _ threshold_table_ok t) as Hrow.
  cbv beta in Hrow.
  assert (Hin : 0 <= t < 0 + Z.of_nat (Z.to_nat (exact_bound + 1))) by lia.
  specialize (Hrow Hin).
  pose proof (Z_forall_from_spec _ _ _ Hrow p) as Hcell.
  cbv beta in Hcell.
  assert (Hin' : 0 <= p < 0 + Z.of_nat (Z.to_nat (t + 1))) by lia.
  specialize (Hcell Hin').
  apply eqb_prop in Hcell. exact Hcell.
Qed.

Lemma all_passed_iff (ts : list Test) :
  (forall t, In t ts -> passed t = true) <-> len (filter passed ts) = len ts.
Proof.
  rewrite len_filter_all. symmetry. apply forallb_forall.
Qed.

(** C1, as the claim states it, fails: aggregation of a report without
    outcomes does not leave or write "unknown". *)
Lemma calculate_overall_status_empty_not_unknown :
  overall_status (snd (calculate_overall_status (mkReport "" [] "unknown" []))) <> "unknown".
Proof. vm_compute. discriminate. Qed.

(** C1, amended: for the empty outcome list the passed count and the total
    are both 0, the first branch ([passed_tests == total_tests]) is taken and
    [calculate_overall_status] sets the status to "clear", whatever it was. *)
Theorem calculate_overall_status_empty (ts : string) (st : string) (iss : list string) :
  calculate_overall_status (mkReport ts [] st iss)
  = (Ok (0, 0), mkReport ts [] "clear" iss).
Proof. reflexivity. Qed.

(** C10: whatever the outcome list, the empty one included,
    [calculate_overall_status] writes one of "clear", "partial_restriction"
    and "restricted", never "unknown"; "unknown" is the status [__init__]
    gives a report, before any aggregation. *)
Theorem calculate_overall_status_three_valued (w : World) (r : Report) :
  let s := overall_status (snd (calculate_overall_status r)) in
  (s = "clear" \/ s = "partial_restriction" \/ s = "restricted")
  /\ s <> "unknown"
  /\ overall_status (init w) = "unknown".
Proof.
  cbv zeta. rewrite calculate_overall_status_spec. cbn [snd overall_status].
  rewrite aggregate_unfold.
  destruct (len (filter passed (tests r)) =? len (tests r));
    [|destruct (at_least_70_percent _ _)];
    (split; [tauto | split; [discriminate | reflexivity]]).
Qed.

(** C4: for a non-empty outcome list the status is "clear" when every
    outcome passed; otherwise it is "partial_restriction" when the passed
    count is at least the total times 0.7 (the script's binary64 test) and
    "restricted" when it is not.  Up to [exact_bound] outcomes that test is
    exactly [7 * total <= 10 * passed], boundary included: 7 of 10 is
    "partial_restriction", 6 of 10 is "restricted". *)
Theorem calculate_overall_status_nonempty (r : Report) :
  tests r <> [] ->
  let status := overall_status (snd (calculate_overall_status r)) in
  let passed_tests := len (filter passed (tests r)) in
  let total_tests := len (tests r) in
  let all_passed := forall t, In t (tests r) -> passed t = true in
  (all_passed -> status = "clear")
  /\ (~ all_passed ->
      at_least_70_percent passed_tests total_tests = true ->
      status = "partial_restriction")
  /\ (~ all_passed ->
      at_least_70_percent passed_tests total_tests = false ->
      status = "restricted")
  /\ (total_tests <= exact_bound ->
      (at_least_70_percent passed_tests total_tests = true
       <-> 7 * total_tests <= 10 * passed_tests)).
Proof.
  intros _. cbv zeta.
  rewrite calculate_overall_status_spec. cbn [snd overall_status].
  rewrite aggregate_unfold, all_passed_iff.
  split; [|split; [|split]].
  - intros Hall. apply Z.eqb_eq in Hall. rewrite Hall. reflexivity.
  - intros Hnot Hge. apply Z.eqb_neq in Hnot. rewrite Hnot, Hge. reflexivity.
  - intros Hnot Hlt. apply Z.eqb_neq in Hnot. rewrite Hnot, Hlt. reflexivity.
  - intros Hb. rewrite at_least_70_percent_exact.
    + apply Z.leb_le.
    + apply len_filter_le.
    + exact Hb.
Qed.

Lemma calculate_overall_status_nonempty_witness :
  overall_status (snd (calculate_overall_status seven_of_ten)) = "partial_restriction".
Proof.
  destruct (calculate_overall_status_nonempty seven_of_ten) as (_ & Hpartial & _).
  - discriminate.
  - apply Hpartial.
    + intros Hall.
      specialize (Hall (mkTest "probe" false "")).
      discriminate Hall. simpl. tauto.
    + vm_compute. reflexivity.
Defined.

(** The boundary of the spec, on any list: 7 passed of 10 is
    "partial_restriction" and 6 passed of 10 is "restricted". *)
Lemma aggregate_seven_of_ten (ts : list Test) :
  len ts = 10 -> len (filter passed ts) = 7 -> aggregate ts = "partial_restriction".
Proof.
  intros Ht Hp. rewrite aggregate_unfold, Ht, Hp. vm_compute. reflexivity.
Qed.

Lemma aggregate_six_of_ten (ts : list Test) :
  len ts = 10 -> len (filter passed ts) = 6 -> aggregate ts = "restricted".
Proof.
  intros Ht Hp. rewrite aggregate_unfold, Ht, Hp. vm_compute. reflexivity.
Qed.

Example aggregate_six_of_ten_run :
  overall_status (snd (calculate_overall_status six_of_ten)) = "restricted".
Proof. vm_compute. reflexivity. Qed.

(** ** Substring tests *)

Lemma prefix_app (n post : string) : String.prefix n (n ++ post) = true.
Proof.
  induction n as [|a n IH]; simpl.
  - destruct post; reflexivity.
  - destruct (ascii_dec a a) as [_|Hne]; [exact IH | contradiction].
Qed.

Lemma prefix_inv (n : string) : forall s,
  String.prefix n s = true -> exists post, s = n ++ post.
Proof.
  induction n as [|a n IH]; intros s H.
  - exists s. reflexivity.
  - destruct s as [|b s]; simpl in H; [discriminate|].
    destruct (ascii_dec a b) as [->|_]; [|discriminate].
    destruct (IH s H) as [post ->]. exists post. reflexivity.
Qed.

Lemma string_app_assoc (a b c : string) : (a ++ b) ++ c = a ++ b ++ c.
Proof. induction a as [|x a IH]; simpl; [reflexivity | rewrite IH; reflexivity]. Qed.

Lemma contains_prefix (needle s : string) :
  String.prefix needle s = true -> contains needle s = true.
Proof. intros H. destruct s; cbn [contains]; rewrite H; reflexivity. Qed.

(** [needle in s] holds exactly when [s] is [pre ++ needle ++ post]. *)
Lemma contains_intro (needle pre post : string) :
  contains needle (pre ++ needle ++ post) = true.
Proof.
  induction pre as [|a pre IH].
  - change ("" ++ needle ++ post) with (needle ++ post).
    apply contains_prefix, prefix_app.
  - change (String a pre ++ needle ++ post) with (String a (pre ++ needle ++ post)).
    cbn [contains]. rewrite IH. apply orb_true_r.
Qed.

Lemma contains_inv (needle : string) : forall s,
  contains needle s = true -> exists pre post, s = pre ++ needle ++ post.
Proof.
  induction s as [|a s IH]; intros H; cbn [contains] in H;
    apply orb_true_iff in H as [H|H].
  - destruct (prefix_inv _ _ H) as [post ->]. exists "", post. reflexivity.
  - discriminate.
  - destruct (prefix_inv _ _ H) as [post Hs]. exists "", post. exact Hs.
  - destruct (IH H) as [pre [post ->]]. exists (String a pre), post. reflexivity.
Qed.

Lemma contains_suffix_of_needle (front back s : string) :
  contains (front ++ back) s = true -> contains back s = true.
Proof.
  intros H. destruct (contains_inv _ _ H) as [pre [post ->]].
  rewrite string_app_assoc, <- (string_app_assoc pre front).
  apply contains_intro.
Qed.

(** Every output that reports "100% packet loss" also contains
    "0% packet loss": the first test of [check_packet_loss] shadows the
    second. *)
Lemma total_loss_contains_no_loss (output : string) :
  contains "100% packet loss" output = true ->
  contains "0% packet loss" output = true.
Proof. apply (contains_suffix_of_needle "10" "0% packet loss"). Qed.

(** ** The Packet Loss probe *)

(** Whenever [ping] completes and its output reports 100% packet loss, the
    probe takes its first branch and records a passing outcome. *)
Lemma check_packet_loss_total_loss (w : World) (r : Report) (p : CompletedProcess) :
  packet_loss_ping w packet_loss_ping_args = Ok p ->
  contains "100% packet loss" (stdout p) = true ->
  check_packet_loss w r = (Ok true, recorded "Packet Loss" true "Connection stable" r).
Proof.
  intros Hrun Hloss. apply total_loss_contains_no_loss in Hloss.
  unfold check_packet_loss, try_except, bind, call. rewrite Hrun, Hloss.
  cbn [orb]. rewrite add_result_spec. reflexivity.
Qed.

(** The branch for complete loss is dead: no run of the probe records the
    detail "Complete packet loss detected". *)
Lemma check_packet_loss_never_complete_loss (w : World) (r : Report) :
  exists status detail,
    check_packet_loss w r = (Ok status, recorded "Packet Loss" status detail r)
    /\ detail <> "Complete packet loss detected".
Proof.
  unfold check_packet_loss, try_except, bind, call.
  destruct (packet_loss_ping w packet_loss_ping_args) as [p|e].
  - destruct (contains "0% packet loss" (stdout p)) eqn:H0; cbn [orb].
    + rewrite add_result_spec. eexists _, _. split; [reflexivity | discriminate].
    + destruct (contains "0.0% packet loss" (stdout p)).
      * rewrite add_result_spec. eexists _, _. split; [reflexivity | discriminate].
      * destruct (contains "100% packet loss" (stdout p)) eqn:H100.
        -- apply total_loss_contains_no_loss in H100. congruence.
        -- rewrite add_result_spec. eexists _, _. split; [reflexivity | discriminate].
  - destruct e; cbn [isinstance]; rewrite add_result_spec;
      eexists _, _; (split; [reflexivity | discriminate]).
Qed.

(** C2: on a [ping] output that reports 100% packet loss the Packet Loss
    probe records [passed = true] with detail "Connection stable", where the
    claim requires a failing outcome: "0% packet loss" is a substring of
    "100% packet loss". *)
Theorem check_packet_loss_total_loss_recorded_as_pass :
  check_packet_loss total_loss_world (init total_loss_world)
  = (Ok true,
     {| timestamp := "2024-01-01T00:00:00";
        tests := [mkTest "Packet Loss" true "Connection stable"];
        overall_status := "unknown";
        issues_found := [] |}).
Proof. vm_compute. reflexivity. Qed.

(** The same happens for a partial loss of 20%. *)
Example check_packet_loss_partial_loss_recorded_as_pass :
  check_packet_loss partial_loss_world (init partial_loss_world)
  = (Ok true,
     {| timestamp := "2024-01-01T00:00:00";
        tests := [mkTest "Packet Loss" true "Connection stable"];
        overall_status := "unknown";
        issues_found := [] |}).
Proof. vm_compute. reflexivity. Qed.

(** ** The probes that need the HTTP transport *)

(** C7: when the requests library is unavailable, the HTTP Response Time
    probe and the DPI probe each return [True] and record one outcome with
    [passed = true] whose detail contains "skipped"; nothing is added to the
    issues. *)
Theorem http_probes_skipped_without_requests (w : World) (r : Report) :
  REQUESTS_AVAILABLE w = false ->
  check_http_response_time w r
    = (Ok true, recorded "HTTP Response Time" true "Test skipped (requests not installed)" r)
  /\ check_http_vs_https w r
    = (Ok true, recorded "DPI Check" true "Test skipped" r)
  /\ contains "skipped" "Test skipped (requests not installed)" = true
  /\ contains "skipped" "Test skipped" = true
  /\ issues_found (recorded "HTTP Response Time" true "Test skipped (requests not installed)" r)
     = issues_found r
  /\ issues_found (recorded "DPI Check" true "Test skipped" r) = issues_found r.
Proof.
  intros Hna.
  unfold check_http_response_time, check_http_vs_https. rewrite Hna. cbn [negb].
  unfold bind. rewrite !add_result_spec.
  repeat split; try reflexivity; cbn [recorded issues_found]; apply app_nil_r.
Qed.

Lemma http_probes_skipped_without_requests_witness :
  check_http_response_time (without_requests healthy_world) (init healthy_world)
    = (Ok true,
       mkReport "2024-01-01T00:00:00"
         [mkTest "HTTP Response Time" true "Test skipped (requests not installed)"]
         "unknown" [])
  /\ check_http_vs_https (without_requests healthy_world) (init healthy_world)
    = (Ok true,
       mkReport "2024-01-01T00:00:00" [mkTest "DPI Check" true "Test skipped"]
         "unknown" []).
Proof.
  destruct (http_probes_skipped_without_requests
              (without_requests healthy_world) (init healthy_world))
    as (H1 & H2 & _).
  - reflexivity.
  - split; [exact H1 | exact H2].
Defined.

(** One timed request never raises and leaves the report alone. *)
Lemma timed_get_spec (w : World) (url : string) (r : Report) :
  timed_get w url r =
    (Ok match dpi_get w url with
        | Ok response => Some (snd response)
        | Raise _ => None
        end, r).
Proof.
  unfold timed_get, try_except, bind, call, ret.
  destruct (dpi_get w url) as [response|e]; reflexivity.
Qed.

(** C8: the DPI/Throttling probe records exactly one outcome.  It records
    [passed = false] only when the transport is available, both requests
    returned, and the HTTPS time is greater than the HTTP time multiplied by
    3 (in binary64); when either request raises, or when the HTTPS time is
    not greater, it records [passed = true].  And it does record
    [passed = false] in that case, for all elapsed times other than exactly
    0.0, which Python treats as false in [if http_time and https_time]. *)
Theorem check_http_vs_https_fails_only_when_slower (w : World) (r : Report) :
  exists status test_name detail,
    check_http_vs_https w r = (Ok status, recorded test_name status detail r)
    /\ (status = false ->
        REQUESTS_AVAILABLE w = true
        /\ exists code_http http_time code_https https_time,
             dpi_get w test_url_http = Ok (code_http, http_time)
             /\ dpi_get w test_url_https = Ok (code_https, https_time)
             /\ PrimFloat.ltb (PrimFloat.mul http_time 3%float) https_time = true)
    /\ (forall e, dpi_get w test_url_http = Raise e -> status = true)
    /\ (forall e, dpi_get w test_url_https = Raise e -> status = true)
    /\ (forall code_http http_time code_https https_time,
          dpi_get w test_url_http = Ok (code_http, http_time) ->
          dpi_get w test_url_https = Ok (code_https, https_time) ->
          PrimFloat.ltb (PrimFloat.mul http_time 3%float) https_time = false ->
          status = true)
    /\ (forall code_http http_time code_https https_time,
          REQUESTS_AVAILABLE w = true ->
          dpi_get w test_url_http = Ok (code_http, http_time) ->
          dpi_get w test_url_https = Ok (code_https, https_time) ->
          PrimFloat.eqb http_time 0%float = false ->
          PrimFloat.eqb https_time 0%float = false ->
          PrimFloat.ltb (PrimFloat.mul http_time 3%float) https_time = true ->
          status = false /\ test_name = "DPI/Throttling Check").
Proof.
  change 3%float with (float_of_int 3).
  unfold check_http_vs_https, no_throttling.
  destruct (REQUESTS_AVAILABLE w); cbn [negb].
  2:{ unfold bind. rewrite add_result_spec.
      exists true, "DPI Check", "Test skipped".
      split; [reflexivity|]. split; [discriminate|].
      repeat split; auto; discriminate. }
  unfold bind at 1. rewrite timed_get_spec.
  unfold bind at 1. rewrite timed_get_spec.
  destruct (dpi_get w test_url_http) as [[c1 h]|e1];
    destruct (dpi_get w test_url_https) as [[c2 s]|e2]; cbn [snd].
  - unfold truthy_float.
    destruct (PrimFloat.eqb h 0) eqn:Hh; cbn [negb andb].
    { unfold bind. rewrite add_result_spec. eexists true, _, _.
      split; [reflexivity|]. split; [discriminate|].
      split; [auto|]. split; [auto|]. split; [auto|].
      intros ? ? ? ? _ [= <- <-] _ Hz. congruence. }
    destruct (PrimFloat.eqb s 0) eqn:Hs; cbn [negb andb].
    { unfold bind. rewrite add_result_spec. eexists true, _, _.
      split; [reflexivity|]. split; [discriminate|].
      split; [auto|]. split; [auto|]. split; [auto|].
      intros ? ? ? ? _ _ [= <- <-] _ Hz. congruence. }
    destruct (PrimFloat.ltb (PrimFloat.mul h (float_of_int 3)) s) eqn:Hslow.
    + unfold bind. rewrite add_result_spec. eexists false, _, _.
      split; [reflexivity|]. split.
      { intros _. split; [reflexivity|]. exists c1, h, c2, s. auto. }
      split; [discriminate|]. split; [discriminate|]. split.
      { intros ? ? ? ? [= <- <-] [= <- <-] Hns. congruence. }
      intros. split; reflexivity.
    + unfold bind. rewrite add_result_spec. eexists true, _, _.
      split; [reflexivity|]. split; [discriminate|].
      split; [auto|]. split; [auto|]. split; [auto|].
      intros ? ? ? ? _ [= <- <-] [= <- <-] _ _ Hlt. congruence.
  - unfold bind. rewrite add_result_spec. eexists true, _, _.
    split; [reflexivity|]. split; [discriminate|].
    split; [auto|]. split; [auto|]. split; [auto|].
    intros ? ? ? ? _ _ Habs. discriminate Habs.
  - unfold bind. rewrite add_result_spec. eexists true, _, _.
    split; [reflexivity|]. split; [discriminate|].
    split; [auto|]. split; [auto|]. split; [auto|].
    intros ? ? ? ? _ Habs. discriminate Habs.
  - unfold bind. rewrite add_result_spec. eexists true, _, _.
    split; [reflexivity|]. split; [discriminate|].
    split; [auto|]. split; [auto|]. split; [auto|].
    intros ? ? ? ? _ Habs. discriminate Habs.
Qed.

Lemma check_http_vs_https_fails_only_when_slower_witness :
  exists detail,
    check_http_vs_https slow_https_world (init slow_https_world)
    = (Ok false,
       recorded "DPI/Throttling Check" false detail (init slow_https_world)).
Proof.
  destruct (check_http_vs_https_fails_only_when_slower
              slow_https_world (init slow_https_world))
    as (status & test_name & detail & Hrun & _ & _ & _ & _ & Hfails).
  destruct (Hfails 200 0.5%float 200 2%float) as [-> ->];
    try (vm_compute; reflexivity).
  exists detail. exact Hrun.
Defined.

(** HTTPS takes 2 s where HTTP takes 0.5 s: the probe fails. *)
Example check_http_vs_https_slow_https :
  let w := with_dpi_get healthy_world
             (fun url => if String.eqb url test_url_https
                         then Ok (200, 2%float) else Ok (200, 0.5%float)) in
  fst (check_http_vs_https w (init w)) = Ok false.
Proof. vm_compute. reflexivity. Qed.

(** An HTTP time of exactly 0.0 is falsy, so the comparison is not made and
    the probe passes although HTTPS took 2 s. *)
Example check_http_vs_https_zero_http_time :
  let w := with_dpi_get healthy_world
             (fun url => if String.eqb url test_url_https
                         then Ok (200, 2%float) else Ok (200, 0%float)) in
  fst (check_http_vs_https w (init w)) = Ok true.
Proof. vm_compute. reflexivity. Qed.

(** ** The Domain Accessibility probe *)

Lemma len_cons {A : Type} (x : A) (l : list A) : len (x :: l) = 1 + len l.
Proof. unfold len. cbn [List.length]. lia. Qed.

Lemma len_filter_cons {A : Type} (f : A -> bool) (x : A) (l : list A) :
  len (filter f (x :: l)) = (if f x then 1 else 0) + len (filter f l).
Proof. cbn [filter]. destruct (f x); [apply len_cons | lia]. Qed.

(** The loop of the probe: it counts the failures and the non-empty
    addresses, or stops at the first lookup that raises something else. *)
Lemma blocked_domains_loop_spec (w : World) (domains : list string) :
  forall blocked_count accessible_count r,
  match for_each domains (blocked_domains_step w) (blocked_count, accessible_count) r with
  | (Ok (blocked_count', accessible_count'), r') =>
      r' = r
      /\ blocked_count' = blocked_count + len (filter (resolution_failed w) domains)
      /\ accessible_count' = accessible_count + len (filter (accessible w) domains)
      /\ len (filter (resolved w) domains) + len (filter (resolution_failed w) domains)
         = len domains
  | (Raise e, r') =>
      r' = r
      /\ exists domain, In domain domains
           /\ blocked_domains_lookup w domain = Raise e
           /\ isinstance e C_gaierror = false
           /\ isinstance e C_socket_timeout = false
  end.
Proof.
  induction domains as [|d domains IH]; intros b a r.
  - cbn. repeat split; lia.
  - cbn [for_each]. unfold bind at 1.
    rewrite !len_filter_cons, len_cons.
    unfold blocked_domains_step, try_except, bind, call, ret, raise.
    unfold resolution_failed at 1 3, accessible at 1, resolved at 1.
    destruct (blocked_domains_lookup w d) as [addr|e] eqn:Hd.
    + destruct (truthy_str addr).
      * specialize (IH b (a + 1) r).
        destruct (for_each domains _ _ r) as [[[b' a']|e'] r'].
        -- destruct IH as (-> & -> & -> & Hsum). repeat split; lia.
        -- destruct IH as (-> & d' & Hin & Hd'). split; [reflexivity|].
           exists d'. split; [right; exact Hin | exact Hd'].
      * specialize (IH b a r).
        destruct (for_each domains _ _ r) as [[[b' a']|e'] r'].
        -- destruct IH as (-> & -> & -> & Hsum). repeat split; lia.
        -- destruct IH as (-> & d' & Hin & Hd'). split; [reflexivity|].
           exists d'. split; [right; exact Hin | exact Hd'].
    + destruct (isinstance e C_gaierror) eqn:Hg;
        [|destruct (isinstance e C_socket_timeout) eqn:Ht]; cbn [orb].
      * specialize (IH (b + 1) a r).
        destruct (for_each domains _ _ r) as [[[b' a']|e'] r'].
        -- destruct IH as (-> & -> & -> & Hsum). repeat split; lia.
        -- destruct IH as (-> & d' & Hin & Hd'). split; [reflexivity|].
           exists d'. split; [right; exact Hin | exact Hd'].
      * specialize (IH (b + 1) a r).
        destruct (for_each domains _ _ r) as [[[b' a']|e'] r'].
        -- destruct IH as (-> & -> & -> & Hsum). repeat split; lia.
        -- destruct IH as (-> & d' & Hin & Hd'). split; [reflexivity|].
           exists d'. split; [right; exact Hin | exact Hd'].
      * split; [reflexivity|]. exists d. split; [left; reflexivity|]. auto.
Qed.

Lemma is_restricted_table :
  Z_forall_from (fun b => Bool.eqb (is_restricted b) (5 <? b)) 0 11 = true.
Proof. vm_compute. reflexivity. Qed.

Lemma is_restricted_exact (blocked_count : Z) :
  0 <= blocked_count <= 10 -> is_restricted blocked_count = (5 <? blocked_count).
Proof.
  intros Hb. apply eqb_prop.
  apply (Z_forall_from_spec _ _ _ is_restricted_table blocked_count). lia.
Qed.

(** ** Faults: what each probe absorbs and what escapes it *)

(** A loop whose body leaves the report alone either ends with the report
    unchanged, or stops with the exception one of its iterations raised. *)
Lemma for_each_spec {A S : Type} (body : A -> S -> M S) (xs : list A) :
  (forall x acc r, snd (body x acc r) = r) ->
  forall acc r,
  match for_each xs body acc r with
  | (Ok _, r') => r' = r
  | (Raise e, r') =>
      r' = r /\ exists x acc0, In x xs /\ body x acc0 r = (Raise e, r)
  end.
Proof.
  intros Hbody. induction xs as [|x xs IH]; intros acc r.
  - reflexivity.
  - cbn [for_each]. unfold bind.
    pose proof (Hbody x acc r) as Hsnd.
    destruct (body x acc r) as [[acc'|e] r1] eqn:Hx; cbn [snd] in Hsnd; subst r1.
    + specialize (IH acc' r).
      destruct (for_each xs body acc' r) as [[acc''|e] r2]; [exact IH|].
      destruct IH as (-> & y & acc0 & Hin & Hy). split; [reflexivity|].
      exists y, acc0. split; [right; exact Hin | exact Hy].
    + split; [reflexivity|]. exists x, acc. split; [left; reflexivity | exact Hx].
Qed.

Lemma dns_resolution_step_spec (w : World) item all_passed r :
  snd (dns_resolution_step w item all_passed r) = r
  /\ forall e, fst (dns_resolution_step w item all_passed r) = Raise e ->
       dns_resolution_lookup w (fst item) = Raise e
       /\ isinstance e C_gaierror = false
       /\ isinstance e C_socket_timeout = false.
Proof.
  destruct item as [domain dns_server].
  unfold dns_resolution_step, try_except, bind, call, ret, raise. cbn [fst].
  destruct (dns_resolution_lookup w domain) as [addr|e0].
  - destruct (truthy_str addr); (split; [reflexivity | discriminate]).
  - destruct (isinstance e0 C_gaierror) eqn:Hg;
      [|destruct (isinstance e0 C_socket_timeout) eqn:Ht];
      (split; [reflexivity|]); cbn [fst]; try discriminate.
    intros e [= <-]. auto.
Qed.

Lemma check_dns_resolution_records (w : World) :
  probe_records (check_dns_resolution w) "DNS Resolution" (dns_resolution_fault w).
Proof.
  intros r. unfold check_dns_resolution. unfold bind at 1.
  pose proof (for_each_spec (dns_resolution_step w) dns_resolution_domains
                (fun x acc r0 => proj1 (dns_resolution_step_spec w x acc r0)) true r) as H.
  destruct (for_each dns_resolution_domains _ true r) as [[all_passed|e] r'].
  - subst r'. unfold bind. rewrite add_result_spec. eexists. reflexivity.
  - destruct H as (-> & [domain dns_server] & acc0 & Hin & Hx).
    split; [reflexivity|].
    destruct (dns_resolution_step_spec w (domain, dns_server) acc0 r) as [_ Hraise].
    rewrite Hx in Hraise. destruct (Hraise e eq_refl) as (Hl & Hg & Ht).
    exists domain, dns_server. auto.
Qed.

Lemma check_dns_against_blocked_domains_records (w : World) :
  probe_records (check_dns_against_blocked_domains w) "Domain Accessibility"
    (blocked_domains_fault w).
Proof.
  intros r. unfold check_dns_against_blocked_domains. unfold bind at 1.
  pose proof (blocked_domains_loop_spec w blocked_test_domains 0 0 r) as H.
  destruct (for_each blocked_test_domains _ _ r) as [[[b a]|e] r'].
  - destruct H as (-> & _). unfold bind. rewrite add_result_spec.
    eexists. reflexivity.
  - exact H.
Qed.

Lemma dns_servers_step_spec (w : World) item all_passed r :
  snd (dns_servers_step w item all_passed r) = r
  /\ forall e, fst (dns_servers_step w item all_passed r) = Raise e ->
       dns_servers_lookup w (fst item) = Raise e
       /\ isinstance e C_socket_error = false.
Proof.
  destruct item as [dns_ip dns_name].
  unfold dns_servers_step, try_except, bind, call, ret, raise. cbn [fst].
  destruct (dns_servers_lookup w dns_ip) as [addr|e0].
  - split; [reflexivity | discriminate].
  - destruct (isinstance e0 C_socket_error) eqn:Hs;
      (split; [reflexivity|]); cbn [fst]; try discriminate.
    intros e [= <-]. auto.
Qed.

Lemma check_dns_servers_records (w : World) :
  probe_records (check_dns_servers w) "DNS Server Check" (dns_servers_fault w).
Proof.
  intros r. unfold check_dns_servers. unfold bind at 1.
  pose proof (for_each_spec (dns_servers_step w) dns_servers
                (fun x acc r0 => proj1 (dns_servers_step_spec w x acc r0)) true r) as H.
  destruct (for_each dns_servers _ true r) as [[all_passed|e] r'].
  - subst r'. unfold bind. rewrite add_result_spec. eexists. reflexivity.
  - destruct H as (-> & [dns_ip dns_name] & acc0 & Hin & Hx).
    split; [reflexivity|].
    destruct (dns_servers_step_spec w (dns_ip, dns_name) acc0 r) as [_ Hraise].
    rewrite Hx in Hraise. destruct (Hraise e eq_refl) as (Hl & Hs).
    exists dns_ip, dns_name. auto.
Qed.

(** *** Port Connectivity *)

Lemma port_connectivity_loop (w : World) (items : list (Z * string * string)) :
  forall all_passed r,
  for_each items (port_connectivity_step w) all_passed r
  = (Ok (all_passed && forallb (port_open w) items), r).
Proof.
  induction items as [|[[port protocol] host] items IH]; intros all_passed r.
  - cbn. rewrite andb_true_r. reflexivity.
  - cbn [for_each forallb]. unfold bind at 1.
    unfold port_connectivity_step, try_except, bind, call, ret, raise.
    unfold port_open at 1.
    destruct (port_connect_ex w port host) as [result|e].
    + destruct (result =? 0); rewrite IH; [reflexivity|].
      rewrite andb_false_r. reflexivity.
    + destruct (isinstance e C_socket_timeout); cbn [isinstance];
        rewrite IH, andb_false_r; reflexivity.
Qed.

(** The probe passes exactly when every connection returned 0; a fault in
    any connection makes it fail. *)
Lemma check_port_connectivity_spec (w : World) (r : Report) :
  let status := forallb (port_open w) ports_to_check in
  check_port_connectivity w r
  = (Ok status,
     recorded "Port Connectivity" status
       (if status then "All tested ports are accessible" else "Some ports are blocked") r).
Proof.
  cbv zeta. unfold check_port_connectivity. unfold bind at 1.
  rewrite port_connectivity_loop. cbn [andb].
  unfold bind. rewrite add_result_spec. reflexivity.
Qed.

Lemma check_port_connectivity_records (w : World) :
  probe_records (check_port_connectivity w) "Port Connectivity" no_fault.
Proof.
  intros r. rewrite check_port_connectivity_spec. eexists. reflexivity.
Qed.

(** *** HTTP Response Time *)

Lemma response_time_loop (w : World) (urls : list string) :
  forall all_passed suspicious_slow r,
  for_each urls (response_time_step w) (all_passed, suspicious_slow) r
  = (Ok (all_passed && forallb (request_ok w) urls,
         suspicious_slow || existsb (request_slow w) urls), r).
Proof.
  induction urls as [|url urls IH]; intros all_passed suspicious_slow r.
  - cbn. rewrite andb_true_r, orb_false_r. reflexivity.
  - cbn [for_each forallb existsb]. unfold bind at 1.
    unfold response_time_step, try_except, bind, call, ret, raise.
    unfold request_ok at 1, request_slow at 1.
    change (float_of_int 5) with 5%float.
    destruct (response_time_get w url) as [response|e].
    + destruct (PrimFloat.ltb 5 (snd response)); rewrite IH; cbn [andb orb].
      * rewrite orb_true_r. reflexivity.
      * reflexivity.
    + destruct (isinstance e C_requests_Timeout);
        [|destruct (isinstance e C_requests_ConnectionError)]; cbn [isinstance];
        rewrite IH, andb_false_r; reflexivity.
Qed.

(** With the transport available the probe passes exactly when no request
    raised; a slow response changes the detail only. *)
Lemma check_http_response_time_spec (w : World) (r : Report) :
  REQUESTS_AVAILABLE w = true ->
  let status := forallb (request_ok w) response_time_urls in
  exists detail,
    check_http_response_time w r
    = (Ok status, recorded "HTTP Response Time" status detail r).
Proof.
  intros Hav. cbv zeta. unfold check_http_response_time. rewrite Hav. cbn [negb].
  unfold bind at 1. rewrite response_time_loop. cbn [andb orb].
  destruct (forallb (request_ok w) response_time_urls);
    destruct (existsb (request_slow w) response_time_urls); cbn [andb];
    unfold bind; rewrite add_result_spec; eexists; reflexivity.
Qed.

Lemma check_http_response_time_records (w : World) :
  probe_records (check_http_response_time w) "HTTP Response Time" no_fault.
Proof.
  intros r. destruct (REQUESTS_AVAILABLE w) eqn:Hav.
  - destruct (check_http_response_time_spec w r Hav) as [detail ->].
    exists detail. reflexivity.
  - unfold check_http_response_time. rewrite Hav. cbn [negb].
    unfold bind. rewrite add_result_spec. eexists. reflexivity.
Qed.

(** *** MTU Check *)

(** The probe passes on exit code 0 and, fail-open, on any fault other than
    the subprocess timeout. *)
Lemma check_mtu_size_spec (w : World) (r : Report) :
  let status :=
    match mtu_ping w (mtu_ping_args w) with
    | Ok result => returncode result =? 0
    | Raise e => negb (isinstance e C_TimeoutExpired)
    end in
  exists detail,
    check_mtu_size w r = (Ok status, recorded "MTU Check" status detail r).
Proof.
  cbv zeta. unfold check_mtu_size, try_except, bind, call.
  destruct (mtu_ping w (mtu_ping_args w)) as [result|e].
  - destruct (returncode result =? 0); rewrite add_result_spec;
      eexists; reflexivity.
  - destruct (isinstance e C_TimeoutExpired); cbn [isinstance negb];
      rewrite add_result_spec; eexists; reflexivity.
Qed.

Lemma check_mtu_size_records (w : World) :
  probe_records (check_mtu_size w) "MTU Check" no_fault.
Proof.
  intros r. destruct (check_mtu_size_spec w r) as [detail ->].
  exists detail. reflexivity.
Qed.

(** *** Packet Loss and DPI *)

Lemma check_packet_loss_records (w : World) :
  probe_records (check_packet_loss w) "Packet Loss" no_fault.
Proof.
  intros r.
  destruct (check_packet_loss_never_complete_loss w r) as (status & detail & -> & _).
  exists detail. reflexivity.
Qed.

Lemma check_http_vs_https_records (w : World) :
  probe_records (check_http_vs_https w) (dpi_test_name w) no_fault.
Proof.
  intros r. unfold check_http_vs_https, dpi_test_name, no_throttling.
  destruct (REQUESTS_AVAILABLE w); cbn [negb].
  2:{ unfold bind. rewrite add_result_spec. eexists. reflexivity. }
  unfold bind at 1. rewrite timed_get_spec.
  unfold bind at 1. rewrite timed_get_spec.
  destruct (dpi_get w test_url_http) as [[c1 h]|e1];
    destruct (dpi_get w test_url_https) as [[c2 s]|e2]; cbn [snd];
    try (unfold bind; rewrite add_result_spec; eexists; reflexivity).
  destruct (truthy_float h && truthy_float s);
    [destruct (PrimFloat.ltb (PrimFloat.mul h (float_of_int 3)) s)|];
    unfold bind; rewrite add_result_spec; eexists; reflexivity.
Qed.

(** ** The battery *)

(** C3, as the claim states it, fails: a fault that is not a DNS failure,
    raised during the DNS Resolution probe, leaves [run_all_checks] as an
    exception; no outcome is recorded, for that probe or for any later one,
    and the status is not computed. *)
Lemma run_all_checks_aborts_on_dns_fault :
  run_all_checks faulty_dns_world (init faulty_dns_world)
  = (Raise (Exception "unexpected fault"),
     {| timestamp := "2024-01-01T00:00:00";
        tests := [];
        overall_status := "unknown";
        issues_found := [] |}).
Proof. vm_compute. reflexivity. Qed.

Lemma run_all_checks_spec (w : World) (r : Report) :
  match run_all_checks w r with
  | (Ok results, r') =>
      results = r'
      /\ map name (tests r') = (map name (tests r) ++ battery_names w)%list
      /\ overall_status r' = aggregate (tests r')
  | (Raise e, r') =>
      unhandled_fault w e
      /\ overall_status r' = overall_status r
      /\ exists done rest,
           tests r' = (tests r ++ done)%list
           /\ battery_names w = (map name done ++ rest)%list
           /\ rest <> []
  end.
Proof.
  unfold run_all_checks.
  unfold bind at 1. pose proof (check_dns_resolution_records w r) as H1.
  destruct (check_dns_resolution w r) as [[s1|e] r1].
  2:{ destruct H1 as [-> Hf]. split; [left; exact Hf|]. split; [reflexivity|].
      exists [], (battery_names w). rewrite app_nil_r.
      repeat split; discriminate. }
  destruct H1 as [d1 ->].
  unfold bind at 1.
  pose proof (check_dns_against_blocked_domains_records w
                (recorded "DNS Resolution" s1 d1 r)) as H2.
  destruct (check_dns_against_blocked_domains w _) as [[s2|e] r2].
  2:{ destruct H2 as [-> Hf]. split; [right; left; exact Hf|]. split; [reflexivity|].
      exists [mkTest "DNS Resolution" s1 d1], (tl (battery_names w)).
      repeat split; discriminate. }
  destruct H2 as [d2 ->].
  unfold bind at 1.
  pose proof (check_port_connectivity_records w
                (recorded "Domain Accessibility" s2 d2
                   (recorded "DNS Resolution" s1 d1 r))) as H3.
  destruct (check_port_connectivity w _) as [[s3|e] r3];
    [|destruct H3 as [_ []]].
  destruct H3 as [d3 ->].
  unfold bind at 1.
  match goal with
  | |- context [check_http_response_time w ?r0] =>
      pose proof (check_http_response_time_records w r0) as H4;
      destruct (check_http_response_time w r0) as [[s4|e] r4];
      [|destruct H4 as [_ []]]
  end.
  destruct H4 as [d4 ->].
  unfold bind at 1.
  match goal with
  | |- context [check_mtu_size w ?r0] =>
      pose proof (check_mtu_size_records w r0) as H5;
      destruct (check_mtu_size w r0) as [[s5|e] r5];
      [|destruct H5 as [_ []]]
  end.
  destruct H5 as [d5 ->].
  unfold bind at 1.
  match goal with
  | |- context [check_dns_servers w ?r0] =>
      pose proof (check_dns_servers_records w r0) as H6;
      destruct (check_dns_servers w r0) as [[s6|e] r6]
  end.
  2:{ destruct H6 as [-> Hf]. split; [right; right; exact Hf|]. split; [reflexivity|].
      exists [mkTest "DNS Resolution" s1 d1; mkTest "Domain Accessibility" s2 d2;
              mkTest "Port Connectivity" s3 d3; mkTest "HTTP Response Time" s4 d4;
              mkTest "MTU Check" s5 d5],
             ["DNS Server Check"; "Packet Loss"; dpi_test_name w].
      cbn [recorded tests]. rewrite <- !app_assoc.
      repeat split; discriminate. }
  destruct H6 as [d6 ->].
  unfold bind at 1.
  match goal with
  | |- context [check_packet_loss w ?r0] =>
      pose proof (check_packet_loss_records w r0) as H7;
      destruct (check_packet_loss w r0) as [[s7|e] r7];
      [|destruct H7 as [_ []]]
  end.
  destruct H7 as [d7 ->].
  unfold bind at 1.
  match goal with
  | |- context [check_http_vs_https w ?r0] =>
      pose proof (check_http_vs_https_records w r0) as H8;
      destruct (check_http_vs_https w r0) as [[s8|e] r8];
      [|destruct H8 as [_ []]]
  end.
  destruct H8 as [d8 ->].
  unfold bind. rewrite calculate_overall_status_spec.
  cbn [recorded tests overall_status].
  split; [reflexivity|]. split; [|reflexivity].
  rewrite !map_app, <- !app_assoc. reflexivity.
Qed.

Lemma healthy_world_no_unhandled_fault (e : exn) : ~ unhandled_fault healthy_world e.
Proof.
  intros [H|[H|H]].
  - destruct H as (domain & dns_server & _ & Hraise & _). discriminate Hraise.
  - destruct H as (domain & _ & Hraise & _). discriminate Hraise.
  - destruct H as (dns_ip & dns_name & _ & Hraise & _). discriminate Hraise.
Qed.

(** The healthy world, run: eight passing outcomes and the status "clear". *)
Example run_all_checks_healthy :
  let results := snd (run_all_checks healthy_world (init healthy_world)) in
  map passed (tests results) = [true; true; true; true; true; true; true; true]
  /\ overall_status results = "clear"
  /\ issues_found results = []
  /\ main healthy_world plain_invocation = Ok 0.
Proof. vm_compute. repeat split; reflexivity. Qed.

(** One failing probe of eight: 7 >= 8 * 0.7, the status is
    "partial_restriction" and the issues name that probe. *)
Example run_all_checks_one_failure :
  let results := snd (run_all_checks six_blocked_world (init six_blocked_world)) in
  overall_status results = "partial_restriction"
  /\ issues_found results = ["Domain Accessibility"]
  /\ main six_blocked_world plain_invocation = Ok 1.
Proof. vm_compute. repeat split; reflexivity. Qed.

(** * Further properties of the probes *)

(** ** DNS Resolution *)

Lemma dns_resolution_loop (w : World) (items : list (string * string)) :
  forall all_passed r,
  match for_each items (dns_resolution_step w) all_passed r with
  | (Ok b, r') =>
      r' = r
      /\ b = all_passed && forallb (dns_resolves w) items
      /\ existsb (dns_resolution_escapes w) items = false
  | (Raise e, r') =>
      r' = r
      /\ existsb (dns_resolution_escapes w) items = true
      /\ exists item, In item items
           /\ dns_resolution_lookup w (fst item) = Raise e
           /\ isinstance e C_gaierror = false
           /\ isinstance e C_socket_timeout = false
  end.
Proof.
  induction items as [|[domain dns_server] items IH]; intros all_passed r.
  - cbn. rewrite andb_true_r. auto.
  - cbn [for_each forallb existsb]. unfold bind at 1.
    unfold dns_resolution_step, try_except, bind, call, ret, raise.
    unfold dns_resolves at 1, dns_resolution_escapes at 1 3. cbn [fst].
    destruct (dns_resolution_lookup w domain) as [addr|e0] eqn:Hd.
    + assert (Hnext : forall b0,
                match for_each items (dns_resolution_step w) b0 r with
                | (Ok b, r') =>
                    r' = r /\ b = b0 && forallb (dns_resolves w) items
                    /\ false || existsb (dns_resolution_escapes w) items = false
                | (Raise e, r') =>
                    r' = r
                    /\ false || existsb (dns_resolution_escapes w) items = true
                    /\ exists item, In item ((domain, dns_server) :: items)
                         /\ dns_resolution_lookup w (fst item) = Raise e
                         /\ isinstance e C_gaierror = false
                         /\ isinstance e C_socket_timeout = false
                end).
      { intros b0. specialize (IH b0 r).
        destruct (for_each items (dns_resolution_step w) b0 r) as [[b|e] r'];
          [exact IH|].
        destruct IH as (Hr & Hex & item & Hin & Hrest).
        repeat split; auto. exists item. split; [right; exact Hin | exact Hrest]. }
      destruct (truthy_str addr).
      * specialize (Hnext all_passed).
        destruct (for_each items _ all_passed r) as [[b|e] r']; exact Hnext.
      * specialize (Hnext false).
        destruct (for_each items _ false r) as [[b|e] r']; [|exact Hnext].
        destruct Hnext as (Hr & -> & Hex). rewrite andb_false_r. auto.
    + assert (Hfail :
        match for_each items (dns_resolution_step w) false r with
        | (Ok b, r') =>
            r' = r /\ b = all_passed && (false && forallb (dns_resolves w) items)
            /\ false || existsb (dns_resolution_escapes w) items = false
        | (Raise e, r') =>
            r' = r
            /\ false || existsb (dns_resolution_escapes w) items = true
            /\ exists item, In item ((domain, dns_server) :: items)
                 /\ dns_resolution_lookup w (fst item) = Raise e
                 /\ isinstance e C_gaierror = false
                 /\ isinstance e C_socket_timeout = false
        end).
      { specialize (IH false r).
        destruct (for_each items (dns_resolution_step w) false r) as [[b|e] r'].
        - destruct IH as (Hr & -> & Hex). rewrite andb_false_r. auto.
        - destruct IH as (Hr & Hex & item & Hin & Hrest).
          repeat split; auto. exists item. split; [right; exact Hin | exact Hrest]. }
      destruct (isinstance e0 C_gaierror) eqn:Hg;
        [|destruct (isinstance e0 C_socket_timeout) eqn:Ht]; cbn [negb orb].
      * exact Hfail.
      * exact Hfail.
      * repeat split; auto.
        exists (domain, dns_server). split; [left; reflexivity | auto].
Qed.

(** X1: the DNS Resolution probe passes exactly when each of its three
    lookups returned a non-empty address; a lookup that raises gaierror or
    timeout, or returns an empty address, makes it fail, and the other
    lookups are still made.  Any other exception leaves the probe, which
    then records nothing. *)
Theorem check_dns_resolution_outcome (w : World) (r : Report) :
  match check_dns_resolution w r with
  | (Ok status, r') =>
      status = forallb (dns_resolves w) dns_resolution_domains
      /\ existsb (dns_resolution_escapes w) dns_resolution_domains = false
      /\ r' = recorded "DNS Resolution" status
                (if status then "All common domains resolved successfully"
                 else "Some domains failed to resolve") r
  | (Raise e, r') =>
      r' = r
      /\ existsb (dns_resolution_escapes w) dns_resolution_domains = true
      /\ dns_resolution_fault w e
  end.
Proof.
  unfold check_dns_resolution. unfold bind at 1.
  pose proof (dns_resolution_loop w dns_resolution_domains true r) as H.
  destruct (for_each dns_resolution_domains _ true r) as [[b|e] r'].
  - destruct H as (-> & -> & Hex). cbn [andb].
    unfold bind. rewrite add_result_spec. repeat split. exact Hex.
  - destruct H as (-> & Hex & [domain dns_server] & Hin & Hrest).
    repeat split; auto. exists domain, dns_server. auto.
Qed.

(** ** Port Connectivity *)

(** X2: whenever the Port Connectivity probe returns, it has recorded one
    outcome with the status it returns, and that status is true exactly when
    each of the five connections returned 0: a non-zero result, or an
    exception of any kind raised by a connection, makes the probe fail. *)
Theorem check_port_connectivity_outcome (w : World) (r : Report)
  (status : bool) (r' : Report) :
  check_port_connectivity w r = (Ok status, r') ->
  r' = recorded "Port Connectivity" status
         (if status then "All tested ports are accessible" else "Some ports are blocked") r
  /\ (status = true <->
      forall port protocol host,
        In (port, protocol, host) ports_to_check -> port_connect_ex w port host = Ok 0).
Proof.
  rewrite check_port_connectivity_spec. intros Hrun.
  apply pair_equal_spec in Hrun as [Hs Hr].
  assert (Hstatus : status = forallb (port_open w) ports_to_check) by congruence.
  subst status r'. clear Hs.
  split; [reflexivity|].
  rewrite forallb_forall. split.
  - intros H port protocol host Hin. specialize (H _ Hin). unfold port_open in H.
    destruct (port_connect_ex w port host) as [result|e]; [|discriminate].
    apply Z.eqb_eq in H. subst. reflexivity.
  - intros H [[port protocol] host] Hin. unfold port_open.
    rewrite (H port protocol host Hin). reflexivity.
Qed.

Lemma check_port_connectivity_outcome_witness :
  ~ (forall port protocol host,
       In (port, protocol, host) ports_to_check ->
       port_connect_ex port_fault_world port host = Ok 0).
Proof.
  assert (Hrun : check_port_connectivity port_fault_world (init port_fault_world)
                 = (Ok false,
                    mkReport "2024-01-01T00:00:00"
                      [mkTest "Port Connectivity" false "Some ports are blocked"]
                      "unknown" ["Port Connectivity"]))
    by (vm_compute; reflexivity).
  destruct (check_port_connectivity_outcome _ _ _ _ Hrun) as [_ Hiff].
  intros Hall. apply Hiff in Hall. discriminate Hall.
Defined.

(** ** HTTP Response Time *)

(** X3: with the transport available, whenever the HTTP Response Time probe
    returns, it has recorded one outcome with the status it returns, and
    that status is true exactly when neither request raised.  The status
    code of a response is not looked at, and a response slower than 5 s does
    not fail the probe: it only changes the detail, and only when both
    requests returned. *)
Theorem check_http_response_time_outcome (w : World) (r : Report)
  (status : bool) (r' : Report) :
  REQUESTS_AVAILABLE w = true ->
  check_http_response_time w r = (Ok status, r') ->
  let slow := existsb (request_slow w) response_time_urls in
  status = forallb (request_ok w) response_time_urls
  /\ r' = recorded "HTTP Response Time" status
            (if status
             then if slow then "Response times may indicate throttling"
                  else "HTTP responses normal"
             else "HTTP requests failed") r.
Proof.
  intros Hav. cbv zeta. unfold check_http_response_time. rewrite Hav. cbn [negb].
  unfold bind at 1. rewrite response_time_loop. cbn [andb orb].
  destruct (forallb (request_ok w) response_time_urls);
    destruct (existsb (request_slow w) response_time_urls); cbn [andb];
    unfold bind; rewrite add_result_spec; intros [= <- <-];
    split; reflexivity.
Qed.

Lemma check_http_response_time_outcome_witness :
  forallb (request_ok slow_response_world) response_time_urls = true
  /\ existsb (request_slow slow_response_world) response_time_urls = true.
Proof.
  assert (Hrun : check_http_response_time slow_response_world (init slow_response_world)
                 = (Ok true,
                    mkReport "2024-01-01T00:00:00"
                      [mkTest "HTTP Response Time" true
                         "Response times may indicate throttling"]
                      "unknown" []))
    by (vm_compute; reflexivity).
  destruct (check_http_response_time_outcome slow_response_world
              (init slow_response_world) true _ eq_refl Hrun) as [Hstatus _].
  split; [symmetry; exact Hstatus | vm_compute; reflexivity].
Defined.

(** ** MTU Check *)

(** X4: whenever the MTU probe returns, it has recorded one outcome with the
    status it returns.  When [ping] completed, the status is true exactly on
    exit code 0; when the subprocess timed out it is false; when running
    [ping] raised anything else, such as a missing binary, it is true. *)
Theorem check_mtu_size_outcome (w : World) (r : Report) (status : bool) (r' : Report) :
  check_mtu_size w r = (Ok status, r') ->
  match mtu_ping w (mtu_ping_args w) with
  | Ok result =>
      status = (returncode result =? 0)
      /\ r' = recorded "MTU Check" status
                (if status then "No fragmentation issues detected"
                 else "Potential MTU/fragmentation issues") r
  | Raise e =>
      status = negb (isinstance e C_TimeoutExpired)
      /\ r' = recorded "MTU Check" status
                (if status then "Test could not be completed" else "Ping timeout") r
  end.
Proof.
  unfold check_mtu_size, try_except, bind, call.
  destruct (mtu_ping w (mtu_ping_args w)) as [result|e].
  - destruct (returncode result =? 0); rewrite add_result_spec;
      intros [= <- <-]; split; reflexivity.
  - destruct (isinstance e C_TimeoutExpired); cbn [isinstance negb];
      rewrite add_result_spec; intros [= <- <-]; split; reflexivity.
Qed.

Lemma check_mtu_size_outcome_witness :
  mkReport "2024-01-01T00:00:00" [mkTest "MTU Check" false "Ping timeout"]
    "unknown" ["MTU Check"]
  = recorded "MTU Check" false "Ping timeout" (init mtu_timeout_world).
Proof.
  assert (Hrun : check_mtu_size mtu_timeout_world (init mtu_timeout_world)
                 = (Ok false,
                    mkReport "2024-01-01T00:00:00"
                      [mkTest "MTU Check" false "Ping timeout"]
                      "unknown" ["MTU Check"]))
    by (vm_compute; reflexivity).
  pose proof (check_mtu_size_outcome _ _ _ _ Hrun) as H.
  cbn in H. exact (proj2 H).
Defined.

(** ** DNS Server Check *)

Lemma dns_servers_loop (w : World) (items : list (string * string)) :
  forall all_passed r,
  match for_each items (dns_servers_step w) all_passed r with
  | (Ok b, r') =>
      r' = r
      /\ b = all_passed && forallb (dns_server_responds w) items
      /\ existsb (dns_servers_escapes w) items = false
  | (Raise e, r') =>
      r' = r
      /\ existsb (dns_servers_escapes w) items = true
      /\ exists item, In item items
           /\ dns_servers_lookup w (fst item) = Raise e
           /\ isinstance e C_socket_error = false
  end.
Proof.
  induction items as [|[dns_ip dns_name] items IH]; intros all_passed r.
  - cbn. rewrite andb_true_r. auto.
  - cbn [for_each forallb existsb]. unfold bind at 1.
    unfold dns_servers_step at 1. unfold try_except, bind, call, ret, raise.
    unfold dns_server_responds at 1, dns_servers_escapes at 1 3. cbn [fst].
    destruct (dns_servers_lookup w dns_ip) as [addr|e0] eqn:Hd.
    + specialize (IH all_passed r). cbn [orb andb].
      destruct (for_each items (dns_servers_step w) all_passed r) as [[b|e] r'];
        [exact IH|].
      destruct IH as (Hr & Hex & item & Hin & Hrest).
      repeat split; auto. exists item. split; [right; exact Hin | exact Hrest].
    + destruct (isinstance e0 C_socket_error) eqn:Hs; cbn [negb orb andb].
      * specialize (IH false r).
        destruct (for_each items (dns_servers_step w) false r) as [[b|e] r'].
        -- destruct IH as (Hr & -> & Hex). rewrite andb_false_r. auto.
        -- destruct IH as (Hr & Hex & item & Hin & Hrest).
           repeat split; auto. exists item. split; [right; exact Hin | exact Hrest].
      * repeat split; auto.
        exists (dns_ip, dns_name). split; [left; reflexivity | auto].
Qed.

(** X5: the DNS Server Check probe passes exactly when none of its three
    lookups raised; the address a lookup returns is not looked at, so an
    empty address passes here.  Every OSError (gaierror and timeout
    included) fails the probe; an exception that is not an OSError leaves
    it, and nothing is recorded then. *)
Theorem check_dns_servers_outcome (w : World) (r : Report) :
  match check_dns_servers w r with
  | (Ok status, r') =>
      status = forallb (dns_server_responds w) dns_servers
      /\ existsb (dns_servers_escapes w) dns_servers = false
      /\ r' = recorded "DNS Server Check" status
                (if status then "All tested DNS servers responding"
                 else "Some DNS servers not responding") r
  | (Raise e, r') =>
      r' = r
      /\ existsb (dns_servers_escapes w) dns_servers = true
      /\ dns_servers_fault w e
  end.
Proof.
  unfold check_dns_servers. unfold bind at 1.
  pose proof (dns_servers_loop w dns_servers true r) as H.
  destruct (for_each dns_servers _ true r) as [[b|e] r'].
  - destruct H as (-> & -> & Hex). cbn [andb].
    unfold bind. rewrite add_result_spec. repeat split. exact Hex.
  - destruct H as (-> & Hex & [dns_ip dns_name] & Hin & Hrest).
    repeat split; auto. exists dns_ip, dns_name. auto.
Qed.

(** ** Packet Loss *)

Lemma decimal_no_loss_contains_no_loss (output : string) :
  contains "0.0% packet loss" output = true ->
  contains "0% packet loss" output = true.
Proof. apply (contains_suffix_of_needle "0." "0% packet loss"). Qed.

(** What the Packet Loss probe does, branch by branch; the second and third
    tests of the script never decide. *)
Lemma check_packet_loss_spec (w : World) (r : Report) :
  check_packet_loss w r =
    match packet_loss_ping w packet_loss_ping_args with
    | Ok result =>
        if contains "0% packet loss" (stdout result)
        then (Ok true, recorded "Packet Loss" true "Connection stable" r)
        else (Ok false, recorded "Packet Loss" false "Packet loss detected" r)
    | Raise e =>
        if isinstance e C_TimeoutExpired
        then (Ok false, recorded "Packet Loss" false "Ping timeout" r)
        else if isinstance e C_FileNotFoundError
        then (Ok true, recorded "Packet Loss" true "Test skipped (ping not available)" r)
        else (Ok true, recorded "Packet Loss" true "Test could not be completed" r)
    end.
Proof.
  unfold check_packet_loss, try_except, bind, call.
  destruct (packet_loss_ping w packet_loss_ping_args) as [result|e].
  - destruct (contains "0% packet loss" (stdout result)) eqn:H0; cbn [orb].
    + rewrite add_result_spec. reflexivity.
    + destruct (contains "0.0% packet loss" (stdout result)) eqn:H00.
      { apply decimal_no_loss_contains_no_loss in H00. congruence. }
      destruct (contains "100% packet loss" (stdout result)) eqn:H100.
      { apply total_loss_contains_no_loss in H100. congruence. }
      rewrite add_result_spec. reflexivity.
  - destruct (isinstance e C_TimeoutExpired);
      [|destruct (isinstance e C_FileNotFoundError)]; cbn [isinstance];
      rewrite add_result_spec; reflexivity.
Qed.

(** X6: whenever the Packet Loss probe returns after [ping] could not be
    run, the subprocess timeout has failed it with detail "Ping timeout", a
    missing [ping] binary has passed it with detail "Test skipped (ping not
    available)", and every other exception has passed it with detail "Test
    could not be completed".  When [ping] completes, its exit code is not
    looked at: two runs that differ in the exit code only and both return
    give the same status and leave the same report. *)
Theorem check_packet_loss_faults_and_exit_code (w : World) (r : Report) :
  (forall status r' e,
     check_packet_loss w r = (Ok status, r') ->
     packet_loss_ping w packet_loss_ping_args = Raise e ->
     status = negb (isinstance e C_TimeoutExpired)
     /\ r' = recorded "Packet Loss" status
               (if isinstance e C_TimeoutExpired then "Ping timeout"
                else if isinstance e C_FileNotFoundError
                then "Test skipped (ping not available)"
                else "Test could not be completed") r)
  /\ (forall code1 code2 output status1 r1 status2 r2,
        check_packet_loss (with_packet_loss_ping w (Ok (mkCompleted code1 output))) r
        = (Ok status1, r1) ->
        check_packet_loss (with_packet_loss_ping w (Ok (mkCompleted code2 output))) r
        = (Ok status2, r2) ->
        status1 = status2 /\ r1 = r2).
Proof.
  split.
  - intros status r' e Hrun He. rewrite check_packet_loss_spec, He in Hrun.
    destruct (isinstance e C_TimeoutExpired);
      [|destruct (isinstance e C_FileNotFoundError)];
      injection Hrun as <- <-; split; reflexivity.
  - intros code1 code2 output status1 r1 status2 r2 H1 H2.
    rewrite check_packet_loss_spec in H1, H2. cbn in H1, H2.
    rewrite H1 in H2. injection H2 as <- <-. split; reflexivity.
Qed.

Lemma check_packet_loss_faults_and_exit_code_witness :
  mkReport "2024-01-01T00:00:00"
    [mkTest "Packet Loss" true "Test skipped (ping not available)"] "unknown" []
  = recorded "Packet Loss" true "Test skipped (ping not available)"
      (init ping_missing_world).
Proof.
  assert (Hrun : check_packet_loss ping_missing_world (init ping_missing_world)
                 = (Ok true,
                    mkReport "2024-01-01T00:00:00"
                      [mkTest "Packet Loss" true "Test skipped (ping not available)"]
                      "unknown" []))
    by (vm_compute; reflexivity).
  destruct (check_packet_loss_faults_and_exit_code ping_missing_world
              (init ping_missing_world)) as [Hfault _].
  exact (proj2 (Hfault _ _ FileNotFoundError Hrun eq_refl)).
Defined.

(** ** DPI/Throttling *)

(** X7: with the transport available, the DPI/Throttling probe fails exactly
    when both requests returned, both elapsed times are non-zero, and the
    HTTPS time is greater than the HTTP time multiplied by 3; the status
    codes are not looked at.  In particular an elapsed time of exactly 0.0
    passes the probe whatever the other time is. *)
Theorem check_http_vs_https_fails_iff (w : World) (r : Report) :
  REQUESTS_AVAILABLE w = true ->
  exists status detail,
    check_http_vs_https w r
    = (Ok status, recorded "DPI/Throttling Check" status detail r)
    /\ (status = false <->
        exists code_http http_time code_https https_time,
          dpi_get w test_url_http = Ok (code_http, http_time)
          /\ dpi_get w test_url_https = Ok (code_https, https_time)
          /\ PrimFloat.eqb http_time 0%float = false
          /\ PrimFloat.eqb https_time 0%float = false
          /\ PrimFloat.ltb (PrimFloat.mul http_time 3%float) https_time = true).
Proof.
  intros Hav. change 3%float with (float_of_int 3).
  unfold check_http_vs_https, no_throttling. rewrite Hav. cbn [negb].
  unfold bind at 1. rewrite timed_get_spec.
  unfold bind at 1. rewrite timed_get_spec.
  destruct (dpi_get w test_url_http) as [[c1 h]|e1];
    destruct (dpi_get w test_url_https) as [[c2 s]|e2]; cbn [snd].
  - unfold truthy_float.
    destruct (PrimFloat.eqb h 0) eqn:Hh; cbn [negb andb].
    { unfold bind. rewrite add_result_spec. eexists true, _.
      split; [reflexivity|]. split; [discriminate|].
      intros (? & ? & ? & ? & [= <- <-] & _ & Hz & _). congruence. }
    destruct (PrimFloat.eqb s 0) eqn:Hs; cbn [negb andb].
    { unfold bind. rewrite add_result_spec. eexists true, _.
      split; [reflexivity|]. split; [discriminate|].
      intros (? & ? & ? & ? & _ & [= <- <-] & _ & Hz & _). congruence. }
    destruct (PrimFloat.ltb (PrimFloat.mul h (float_of_int 3)) s) eqn:Hslow.
    + unfold bind. rewrite add_result_spec. eexists false, _.
      split; [reflexivity|]. split; [|reflexivity].
      intros _. exists c1, h, c2, s. auto.
    + unfold bind. rewrite add_result_spec. eexists true, _.
      split; [reflexivity|]. split; [discriminate|].
      intros (? & ? & ? & ? & [= <- <-] & [= <- <-] & _ & _ & Hlt). congruence.
  - unfold bind. rewrite add_result_spec. eexists true, _.
    split; [reflexivity|]. split; [discriminate|].
    intros (? & ? & ? & ? & _ & Habs & _). discriminate Habs.
  - unfold bind. rewrite add_result_spec. eexists true, _.
    split; [reflexivity|]. split; [discriminate|].
    intros (? & ? & ? & ? & Habs & _). discriminate Habs.
  - unfold bind. rewrite add_result_spec. eexists true, _.
    split; [reflexivity|]. split; [discriminate|].
    intros (? & ? & ? & ? & Habs & _). discriminate Habs.
Qed.

(** * Further properties of the battery *)

(** ** What a probe returns does not depend on the report *)

Lemma ignores_report_ret {A : Type} (a : A) : ignores_report (ret a).
Proof. intros r1 r2. reflexivity. Qed.

Lemma ignores_report_raise {A : Type} (e : exn) : ignores_report (@raise A e).
Proof. intros r1 r2. reflexivity. Qed.

Lemma ignores_report_call {A : Type} (x : result A) : ignores_report (call x).
Proof. intros r1 r2. reflexivity. Qed.

Lemma ignores_report_add_result test_name p d :
  ignores_report (add_result test_name p d).
Proof. intros r1 r2. rewrite !add_result_spec. reflexivity. Qed.

Lemma ignores_report_bind {A B : Type} (m : M A) (k : A -> M B) :
  ignores_report m -> (forall a, ignores_report (k a)) -> ignores_report (bind m k).
Proof.
  intros Hm Hk r1 r2. unfold bind. specialize (Hm r1 r2).
  destruct (m r1) as [[a1|e1] r1'], (m r2) as [[a2|e2] r2'];
    cbn [fst] in Hm; try discriminate Hm.
  - injection Hm as <-. apply Hk.
  - injection Hm as <-. reflexivity.
Qed.

Lemma ignores_report_try_except {A : Type} (body : M A) (handler : exn -> M A) :
  ignores_report body -> (forall e, ignores_report (handler e)) ->
  ignores_report (try_except body handler).
Proof.
  intros Hb Hh r1 r2. unfold try_except. specialize (Hb r1 r2).
  destruct (body r1) as [[a1|e1] r1'], (body r2) as [[a2|e2] r2'];
    cbn [fst] in Hb; try discriminate Hb.
  - exact Hb.
  - injection Hb as <-. apply Hh.
Qed.

Lemma ignores_report_for_each {A S : Type} (body : A -> S -> M S) (xs : list A) :
  (forall x acc, ignores_report (body x acc)) ->
  forall acc, ignores_report (for_each xs body acc).
Proof.
  intros Hbody. induction xs as [|x xs IH]; intros acc.
  - apply ignores_report_ret.
  - cbn [for_each]. apply ignores_report_bind; [apply Hbody | exact IH].
Qed.

Ltac solve_ignores_report :=
  repeat first
    [ apply ignores_report_ret
    | apply ignores_report_raise
    | apply ignores_report_call
    | apply ignores_report_add_result
    | apply ignores_report_bind; [|intros ?]
    | apply ignores_report_try_except; [|intros ?]
    | apply ignores_report_for_each; intros ? ?
    | match goal with
      | |- ignores_report (if ?b then _ else _) => destruct b
      | |- ignores_report (match ?x with _ => _ end) => destruct x
      end ].

(** X8: no probe reads the report: the status each of the eight probes
    returns, or the exception it lets escape, is the same whatever outcomes
    were recorded before it. *)
Theorem battery_ignores_report (w : World) :
  Forall (fun entry => ignores_report (snd entry)) (battery w).
Proof.
  unfold battery. repeat constructor; cbn [snd].
  - unfold check_dns_resolution, dns_resolution_step. solve_ignores_report.
  - unfold check_dns_against_blocked_domains, blocked_domains_step. solve_ignores_report.
  - unfold check_port_connectivity, port_connectivity_step. solve_ignores_report.
  - unfold check_http_response_time, response_time_step. solve_ignores_report.
  - unfold check_mtu_size. solve_ignores_report.
  - unfold check_dns_servers, dns_servers_step. solve_ignores_report.
  - unfold check_packet_loss. solve_ignores_report.
  - unfold check_http_vs_https, timed_get, no_throttling. solve_ignores_report.
Qed.

(** ** The battery as a sequence of recorded outcomes *)

Lemma failed_names_cons test_name p d (ts : list Test) :
  failed_names (mkTest test_name p d :: ts)
  = ((if p then [] else [test_name]) ++ failed_names ts)%list.
Proof. destruct p; reflexivity. Qed.

Lemma recorded_extended test_name p d (r : Report) :
  recorded test_name p d r = extended r [mkTest test_name p d].
Proof. unfold recorded, extended. rewrite failed_names_one. reflexivity. Qed.

Lemma extended_nil (r : Report) : extended r [] = r.
Proof. destruct r. unfold extended. cbn. rewrite !app_nil_r. reflexivity. Qed.

Lemma extended_app (r : Report) (a b : list Test) :
  extended (extended r a) b = extended r (a ++ b).
Proof.
  unfold extended. cbn [timestamp tests overall_status issues_found].
  rewrite failed_names_app, !app_assoc. reflexivity.
Qed.

Lemma extended_consistent (r : Report) (new : list Test) :
  issues_consistent r -> issues_consistent (extended r new).
Proof.
  unfold issues_consistent, extended. cbn [tests issues_found].
  intros ->. rewrite failed_names_app. reflexivity.
Qed.

Lemma probe_records_outcome (probe : M bool) (test_name : string) (fault : exn -> Prop) :
  probe_records probe test_name fault -> records_outcome test_name probe.
Proof.
  intros H r. specialize (H r).
  destruct (probe r) as [[status|e] r']; [exact H | exact (proj1 H)].
Qed.

Lemma battery_records (w : World) :
  Forall (fun entry => records_outcome (fst entry) (snd entry)) (battery w).
Proof.
  unfold battery. repeat constructor; cbn [fst snd];
    eapply probe_records_outcome.
  - apply check_dns_resolution_records.
  - apply check_dns_against_blocked_domains_records.
  - apply check_port_connectivity_records.
  - apply check_http_response_time_records.
  - apply check_mtu_size_records.
  - apply check_dns_servers_records.
  - apply check_packet_loss_records.
  - apply check_http_vs_https_records.
Qed.

(** A list of recording probes, run: all of them recorded, in order, or one
    raised and exactly those before it recorded. *)
Lemma run_battery_spec (probes : list (string * M bool)) :
  Forall (fun entry => records_outcome (fst entry) (snd entry)) probes ->
  forall r,
  match run_battery probes r with
  | (Ok _, r') =>
      exists new, r' = extended r new /\ map name new = map fst probes
  | (Raise e, r') =>
      exists done rest,
        r' = extended r done
        /\ map fst probes = (map name done ++ rest)%list
        /\ rest <> []
  end.
Proof.
  induction 1 as [|[test_name probe] probes Hrec _ IH]; intros r.
  - cbn. exists []. rewrite extended_nil. auto.
  - cbn [run_battery]. unfold bind. cbn [fst snd] in Hrec.
    specialize (Hrec r). destruct (probe r) as [[status|e] r1].
    + destruct Hrec as [detail ->]. rewrite recorded_extended.
      specialize (IH (extended r [mkTest test_name status detail])).
      destruct (run_battery probes _) as [[[]|e] r'].
      * destruct IH as (new & -> & Hnames). rewrite extended_app.
        eexists. split; [reflexivity|]. cbn. rewrite Hnames. reflexivity.
      * destruct IH as (done & rest & -> & Hnames & Hrest). rewrite extended_app.
        eexists _, rest. split; [reflexivity|]. split; [|exact Hrest].
        cbn. rewrite Hnames. reflexivity.
    + subst r1. exists [], (map fst ((test_name, probe) :: probes)).
      rewrite extended_nil. repeat split. discriminate.
Qed.

(** [run_all_checks] is the battery, then the aggregation, then the report
    itself as the result. *)
Lemma run_all_checks_as_battery (w : World) (r : Report) :
  run_all_checks w r
  = (run_battery (battery w) ;; calculate_overall_status ;; fun r' => (Ok r', r')) r.
Proof.
  unfold run_all_checks, battery, run_battery, bind, ret.
  destruct (check_dns_resolution w r) as [[? | ?] r1]; [|reflexivity].
  destruct (check_dns_against_blocked_domains w r1) as [[? | ?] r2]; [|reflexivity].
  destruct (check_port_connectivity w r2) as [[? | ?] r3]; [|reflexivity].
  destruct (check_http_response_time w r3) as [[? | ?] r4]; [|reflexivity].
  destruct (check_mtu_size w r4) as [[? | ?] r5]; [|reflexivity].
  destruct (check_dns_servers w r5) as [[? | ?] r6]; [|reflexivity].
  destruct (check_packet_loss w r6) as [[? | ?] r7]; [|reflexivity].
  destruct (check_http_vs_https w r7) as [[? | ?] r8]; reflexivity.
Qed.

Lemma battery_fst (w : World) : map fst (battery w) = battery_names w.
Proof. reflexivity. Qed.

(** The report [run_all_checks] leaves, completed or not. *)
Lemma run_all_checks_extended (w : World) (r : Report) :
  match run_all_checks w r with
  | (Ok results, r') =>
      results = r'
      /\ exists new,
           map name new = battery_names w
           /\ r' = {| timestamp := timestamp r;
                      tests := tests r ++ new;
                      overall_status := aggregate (tests r ++ new);
                      issues_found := issues_found r ++ failed_names new |}
  | (Raise e, r') =>
      exists done rest,
        r' = extended r done
        /\ battery_names w = (map name done ++ rest)%list
        /\ rest <> []
  end.
Proof.
  rewrite run_all_checks_as_battery. unfold bind at 1.
  pose proof (run_battery_spec (battery w) (battery_records w) r) as H.
  rewrite battery_fst in H.
  destruct (run_battery (battery w) r) as [[[]|e] r1]; [|exact H].
  destruct H as (new & -> & Hnames).
  unfold bind. rewrite calculate_overall_status_spec.
  split; [reflexivity|]. exists new. split; [exact Hnames | reflexivity].
Qed.

(** X9: a completed [run_all_checks] keeps the timestamp and the outcomes
    the report already had, appends exactly eight outcomes named after the
    battery, in order, appends to the issues the names of those of the eight
    that failed, in order, and sets the status to the aggregate of all
    outcomes; it returns the report it leaves.  An aborted run leaves the
    outcomes and issues of the probes that ran, fewer than eight, and the
    status untouched.  Either way a report whose issues were the names of
    its failed outcomes still has that property. *)
Theorem run_all_checks_report (w : World) (r : Report) :
  match run_all_checks w r with
  | (Ok results, r') =>
      results = r'
      /\ timestamp r' = timestamp r
      /\ overall_status r' = aggregate (tests r')
      /\ (issues_consistent r -> issues_consistent r')
      /\ exists new,
           map name new = battery_names w
           /\ tests r' = (tests r ++ new)%list
           /\ issues_found r' = (issues_found r ++ failed_names new)%list
  | (Raise e, r') =>
      timestamp r' = timestamp r
      /\ overall_status r' = overall_status r
      /\ (issues_consistent r -> issues_consistent r')
      /\ exists done,
           tests r' = (tests r ++ done)%list
           /\ issues_found r' = (issues_found r ++ failed_names done)%list
           /\ (List.length done < 8)%nat
  end.
Proof.
  pose proof (run_all_checks_extended w r) as H.
  destruct (run_all_checks w r) as [[results|e] r'].
  - destruct H as (-> & new & Hnames & ->).
    cbn [timestamp tests overall_status issues_found].
    split; [reflexivity|]. split; [reflexivity|]. split; [reflexivity|]. split.
    + intros Hc. apply (extended_consistent r new Hc).
    + exists new. auto.
  - destruct H as (done & rest & -> & Hnames & Hrest).
    split; [reflexivity|]. split; [reflexivity|]. split.
    + apply extended_consistent.
    + exists done. split; [reflexivity|]. split; [reflexivity|].
      apply (f_equal (@List.length string)) in Hnames.
      rewrite length_app, length_map in Hnames. cbn in Hnames.
      destruct rest; [contradiction|]. cbn in Hnames. lia.
Qed.

(** ** The verdict of a run *)

Lemma len_failed (ts : list Test) :
  len (filter passed ts) + Z.of_nat (List.length (failed_names ts)) = len ts.
Proof.
  unfold len, failed_names. rewrite length_map.
  pose proof (filter_length passed ts). lia.
Qed.

(** The status is "clear" exactly when no outcome failed. *)
Lemma aggregate_clear_iff (ts : list Test) :
  aggregate ts = "clear" <-> failed_names ts = [].
Proof.
  rewrite aggregate_unfold. pose proof (len_failed ts) as Hlen.
  destruct (Z.eqb_spec (len (filter passed ts)) (len ts)) as [Heq|Hne].
  - split; [|reflexivity]. intros _. revert Hlen.
    destruct (failed_names ts); [reflexivity|]. cbn [List.length].
    intros Hlen. exfalso. lia.
  - split.
    + destruct (at_least_70_percent _ _); discriminate.
    + intros Hnil. rewrite Hnil in Hlen. cbn in Hlen. lia.
Qed.

(** Eight outcomes: the status as a function of the number of failures. *)
Lemma aggregate_of_eight (ts : list Test) :
  List.length ts = 8%nat ->
  aggregate ts = status_of_issue_count (List.length (failed_names ts)).
Proof.
  intros H8. rewrite aggregate_unfold. pose proof (len_failed ts) as Hlen.
  assert (Ht : len ts = 8) by (unfold len; lia). rewrite Ht in *.
  pose proof (len_filter_le passed ts) as Hle. rewrite Ht in Hle.
  rewrite at_least_70_percent_exact by (unfold exact_bound; lia).
  revert Hlen.
  destruct (List.length (failed_names ts)) as [|[|[|k]]];
    cbn [status_of_issue_count]; intros Hlen.
  - replace (len (filter passed ts)) with 8 by lia. reflexivity.
  - replace (len (filter passed ts)) with 7 by lia. reflexivity.
  - replace (len (filter passed ts)) with 6 by lia. reflexivity.
  - destruct (Z.eqb_spec (len (filter passed ts)) 8) as [Heq|_]; [lia|].
    destruct (Z.leb_spec (7 * 8) (10 * len (filter passed ts))); [lia | reflexivity].
Qed.

(** X10: after a complete run on a fresh report there are eight outcomes,
    and the status is decided by the number of issues: "clear" with none,
    "partial_restriction" with one or two, "restricted" with three or
    more. *)
Theorem run_all_checks_status_by_issues (w : World) (results r' : Report) :
  run_all_checks w (init w) = (Ok results, r') ->
  List.length (tests results) = 8%nat
  /\ issues_found results = failed_names (tests results)
  /\ overall_status results
     = status_of_issue_count (List.length (issues_found results)).
Proof.
  intros Hrun. pose proof (run_all_checks_extended w (init w)) as H.
  rewrite Hrun in H. destruct H as (-> & new & Hnames & ->).
  cbn [init timestamp tests overall_status issues_found app].
  assert (H8 : List.length new = 8%nat).
  { apply (f_equal (@List.length string)) in Hnames.
    rewrite length_map in Hnames. exact Hnames. }
  split; [exact H8|]. split; [reflexivity|]. apply aggregate_of_eight, H8.
Qed.

Lemma run_all_checks_status_by_issues_witness :
  overall_status (snd (run_all_checks six_blocked_world (init six_blocked_world)))
  = "partial_restriction".
Proof.
  destruct (run_all_checks six_blocked_world (init six_blocked_world))
    as [[results|e] r'] eqn:Hrun.
  - destruct (run_all_checks_status_by_issues six_blocked_world results r' Hrun)
      as (_ & _ & Hstatus).
    assert (Hsame : r' = results).
    { revert Hrun. rewrite run_all_checks_as_battery. vm_compute.
      intros [= <- <-]. reflexivity. }
    subst r'. cbn [snd]. rewrite Hstatus.
    revert Hrun. vm_compute. intros [= <-]. reflexivity.
  - revert Hrun. vm_compute. discriminate.
Defined.

(** X11: whenever [main] reaches [sys.exit], the run completed, the saving
    of the results, if [--json] asked for it, succeeded, and the exit code
    is 0 exactly when the report has no issue and 1 otherwise.  When the run
    completed and the requested saving raises, [main] ends with that
    exception and no exit code of its own. *)
Theorem main_exit_code (w : World) (inv : Invocation) :
  (forall code,
     main w inv = Ok code ->
     exists results,
       run_all_checks w (init w) = (Ok results, results)
       /\ (json_requested inv = true -> save_results inv results = Ok tt)
       /\ code = match issues_found results with [] => 0 | _ :: _ => 1 end)
  /\ (forall results e,
        run_all_checks w (init w) = (Ok results, results) ->
        json_requested inv = true ->
        save_results inv results = Raise e ->
        main w inv = Raise e).
Proof.
  unfold main. split.
  - intros code Hmain.
    pose proof (run_all_checks_extended w (init w)) as H.
    destruct (run_all_checks w (init w)) as [[results|e] r']; [|discriminate Hmain].
    destruct H as (-> & new & Hnames & ->).
    eexists. split; [reflexivity|].
    cbn [init timestamp tests overall_status issues_found app] in *.
    split.
    + intros Hjson. rewrite Hjson in Hmain.
      destruct (save_results inv _) as [[]|e]; [reflexivity | discriminate Hmain].
    + destruct (if json_requested inv then save_results inv _ else Ok tt)
        as [[]|e]; [|discriminate Hmain].
      pose proof (aggregate_clear_iff new) as Hclear.
      destruct (String.eqb_spec (aggregate new) "clear") as [Heq|Hne].
      * rewrite (proj1 Hclear Heq). congruence.
      * destruct (failed_names new); [|congruence].
        destruct Hne. apply Hclear. reflexivity.
  - intros results e Hrun Hjson Hsave. rewrite Hrun, Hjson, Hsave. reflexivity.
Qed.

Lemma main_exit_code_witness :
  (exists results,
     run_all_checks six_blocked_world (init six_blocked_world) = (Ok results, results)
     /\ issues_found results <> [])
  /\ main six_blocked_world json_invocation_read_only
     = Raise (OSError "[Errno 30] Read-only file system").
Proof.
  destruct (main_exit_code six_blocked_world plain_invocation) as [Hcode _].
  destruct (main_exit_code six_blocked_world json_invocation_read_only) as [_ Hsave].
  split.
  - assert (Hmain : main six_blocked_world plain_invocation = Ok 1)
      by (vm_compute; reflexivity).
    destruct (Hcode 1 Hmain) as (results & Hrun & _ & Hissues).
    exists results. split; [exact Hrun|].
    intros Hnil. rewrite Hnil in Hissues. discriminate Hissues.
  - apply (Hsave (snd (run_all_checks six_blocked_world (init six_blocked_world)))).
    + vm_compute. reflexivity.
    + reflexivity.
    + reflexivity.
Defined.

(** ** The aggregation alone *)

Lemma filter_length_permutation {A : Type} (f : A -> bool) (l l' : list A) :
  Permutation l l' -> List.length (filter f l) = List.length (filter f l').
Proof.
  induction 1 as [|x l l' _ IH|x y l|l l' l'' _ IH1 _ IH2]; cbn [filter].
  - reflexivity.
  - destruct (f x); cbn [List.length]; rewrite IH; reflexivity.
  - destruct (f x), (f y); reflexivity.
  - rewrite IH1. exact IH2.
Qed.

(** X12: the aggregation does not depend on the order of the outcomes: two
    reports whose outcome lists are permutations of each other get the same
    counts and the same status. *)
Theorem calculate_overall_status_permutation (r1 r2 : Report) :
  Permutation (tests r1) (tests r2) ->
  fst (calculate_overall_status r1) = fst (calculate_overall_status r2)
  /\ overall_status (snd (calculate_overall_status r1))
     = overall_status (snd (calculate_overall_status r2)).
Proof.
  intros Hperm. rewrite !calculate_overall_status_spec.
  cbn [fst snd overall_status]. rewrite !aggregate_unfold.
  assert (Hp : len (filter passed (tests r1)) = len (filter passed (tests r2))).
  { unfold len. rewrite (filter_length_permutation passed _ _ Hperm). reflexivity. }
  assert (Ht : len (tests r1) = len (tests r2)).
  { unfold len. rewrite (Permutation_length Hperm). reflexivity. }
  rewrite Hp, Ht. split; reflexivity.
Qed.

Lemma calculate_overall_status_permutation_witness :
  overall_status (snd (calculate_overall_status
                         (mkReport "" (rev (tests seven_of_ten)) "unknown" [])))
  = overall_status (snd (calculate_overall_status seven_of_ten)).
Proof.
  apply (calculate_overall_status_permutation
           (mkReport "" (rev (tests seven_of_ten)) "unknown" []) seven_of_ten).
  cbn [tests]. apply Permutation_sym, Permutation_rev.
Defined.

(** X13: [calculate_overall_status] changes nothing but the status; the
    counts it returns are the number of passed outcomes and the number of
    outcomes, which differ by the number of failed ones; called again it
    returns the same counts and leaves the report as it is. *)
Theorem calculate_overall_status_idempotent (r : Report) :
  let '(counts, r1) := calculate_overall_status r in
  exists passed_tests total_tests,
    counts = Ok (passed_tests, total_tests)
    /\ total_tests = len (tests r)
    /\ 0 <= passed_tests <= total_tests
    /\ total_tests - passed_tests = Z.of_nat (List.length (failed_names (tests r)))
    /\ timestamp r1 = timestamp r
    /\ tests r1 = tests r
    /\ issues_found r1 = issues_found r
    /\ calculate_overall_status r1 = (counts, r1).
Proof.
  rewrite calculate_overall_status_spec.
  exists (len (filter passed (tests r))), (len (tests r)).
  pose proof (len_filter_le passed (tests r)). pose proof (len_failed (tests r)).
  repeat split; try reflexivity; try lia.
  rewrite calculate_overall_status_spec. reflexivity.
Qed.

(** X14: on a report whose issues are the names of its failed outcomes, the
    aggregation gives "clear" exactly when there is no issue. *)
Theorem calculate_overall_status_clear_iff_no_issue (r : Report) :
  issues_consistent r ->
  (overall_status (snd (calculate_overall_status r)) = "clear"
   <-> issues_found r = []).
Proof.
  intros Hc. rewrite calculate_overall_status_spec. cbn [snd overall_status].
  rewrite Hc. apply aggregate_clear_iff.
Qed.

(** ** When the run is aborted *)

Lemma blocked_domains_loop_escapes (w : World) (domains : list string) :
  forall counts r,
  existsb (blocked_domains_escapes w) domains = true ->
  exists e, for_each domains (blocked_domains_step w) counts r = (Raise e, r).
Proof.
  induction domains as [|d domains IH]; intros [b a] r Hex.
  - discriminate Hex.
  - cbn [existsb] in Hex. cbn [for_each]. unfold bind at 1.
    unfold blocked_domains_step at 1. unfold try_except, bind, call, ret, raise.
    unfold blocked_domains_escapes at 1 in Hex.
    destruct (blocked_domains_lookup w d) as [addr|e0].
    + cbn [orb] in Hex. destruct (truthy_str addr); apply IH, Hex.
    + destruct (isinstance e0 C_gaierror);
        [|destruct (isinstance e0 C_socket_timeout)]; cbn [negb orb] in Hex.
      * apply IH, Hex.
      * apply IH, Hex.
      * exists e0. reflexivity.
Qed.

Lemma check_dns_resolution_raises (w : World) (e : exn) :
  dns_resolution_fault w e ->
  forall r, exists e', check_dns_resolution w r = (Raise e', r).
Proof.
  intros (domain & dns_server & Hin & Hraise & Hg & Ht) r.
  assert (Hex : existsb (dns_resolution_escapes w) dns_resolution_domains = true).
  { apply existsb_exists. exists (domain, dns_server). split; [exact Hin|].
    unfold dns_resolution_escapes. cbn [fst]. rewrite Hraise, Hg, Ht. reflexivity. }
  unfold check_dns_resolution, bind.
  pose proof (dns_resolution_loop w dns_resolution_domains true r) as H.
  destruct (for_each dns_resolution_domains _ true r) as [[b|e'] r'].
  - destruct H as (_ & _ & Hno). congruence.
  - destruct H as (-> & _). exists e'. reflexivity.
Qed.

Lemma check_dns_against_blocked_domains_raises (w : World) (e : exn) :
  blocked_domains_fault w e ->
  forall r, exists e', check_dns_against_blocked_domains w r = (Raise e', r).
Proof.
  intros (domain & Hin & Hraise & Hg & Ht) r.
  assert (Hex : existsb (blocked_domains_escapes w) blocked_test_domains = true).
  { apply existsb_exists. exists domain. split; [exact Hin|].
    unfold blocked_domains_escapes. rewrite Hraise, Hg, Ht. reflexivity. }
  destruct (blocked_domains_loop_escapes w blocked_test_domains (0, 0) r Hex)
    as [e' He'].
  unfold check_dns_against_blocked_domains, bind. rewrite He'.
  exists e'. reflexivity.
Qed.

Lemma check_dns_servers_raises (w : World) (e : exn) :
  dns_servers_fault w e ->
  forall r, exists e', check_dns_servers w r = (Raise e', r).
Proof.
  intros (dns_ip & dns_name & Hin & Hraise & Hs) r.
  assert (Hex : existsb (dns_servers_escapes w) dns_servers = true).
  { apply existsb_exists. exists (dns_ip, dns_name). split; [exact Hin|].
    unfold dns_servers_escapes. cbn [fst]. rewrite Hraise, Hs. reflexivity. }
  unfold check_dns_servers, bind.
  pose proof (dns_servers_loop w dns_servers true r) as H.
  destruct (for_each dns_servers _ true r) as [[b|e'] r'].
  - destruct H as (_ & _ & Hno). congruence.
  - destruct H as (-> & _). exists e'. reflexivity.
Qed.

(** A battery one of whose probes raises on every report is aborted. *)
Lemma run_battery_raises (probes : list (string * M bool)) :
  Exists (fun entry => forall r, exists e, snd entry r = (Raise e, r)) probes ->
  forall r, exists e r', run_battery probes r = (Raise e, r').
Proof.
  induction 1 as [[test_name probe] probes Hraises|[test_name probe] probes _ IH];
    intros r; cbn [run_battery]; unfold bind.
  - cbn [snd] in Hraises. destruct (Hraises r) as [e ->]. exists e, r. reflexivity.
  - destruct (probe r) as [[status|e] r1].
    + apply IH.
    + exists e, r1. reflexivity.
Qed.

(** A battery whose probes record up to one that raises on every report: the
    run stops there, with the outcomes of some of the probes before it. *)
Lemma run_battery_stops (before after : list (string * M bool))
  (test_name : string) (probe : M bool) :
  Forall (fun entry => records_outcome (fst entry) (snd entry)) before ->
  (forall r, exists e, probe r = (Raise e, r)) ->
  forall r,
  exists e done,
    run_battery (before ++ (test_name, probe) :: after) r = (Raise e, extended r done)
    /\ (List.length done <= List.length before)%nat.
Proof.
  intros Hrec Hraises. induction Hrec as [|[n p] before Hp _ IH]; intros r.
  - cbn [app run_battery]. unfold bind. destruct (Hraises r) as [e ->].
    exists e, []. rewrite extended_nil. split; [reflexivity | cbn; lia].
  - cbn [app run_battery]. unfold bind. cbn [fst snd] in Hp. specialize (Hp r).
    destruct (p r) as [[status|e] r1].
    + destruct Hp as [detail ->]. rewrite recorded_extended.
      destruct (IH (extended r [mkTest n status detail])) as (e & done & -> & Hlen).
      exists e, (mkTest n status detail :: done). rewrite extended_app.
      split; [reflexivity | cbn; lia].
    + subst r1. exists e, []. rewrite extended_nil. split; [reflexivity | cbn; lia].
Qed.

Lemma run_all_checks_stops (w : World) (before after : list (string * M bool))
  (test_name : string) (probe : M bool) :
  battery w = (before ++ (test_name, probe) :: after)%list ->
  (forall r, exists e, probe r = (Raise e, r)) ->
  forall r,
  exists e done,
    run_all_checks w r = (Raise e, extended r done)
    /\ (List.length done <= List.length before)%nat.
Proof.
  intros Hsplit Hraises r.
  assert (Hrec : Forall (fun entry => records_outcome (fst entry) (snd entry)) before).
  { pose proof (battery_records w) as H. rewrite Hsplit in H.
    apply Forall_app in H. exact (proj1 H). }
  destruct (run_battery_stops before after test_name probe Hrec Hraises r)
    as (e & done & Hrun & Hlen).
  rewrite run_all_checks_as_battery. unfold bind at 1. rewrite Hsplit, Hrun.
  exists e, done. split; [reflexivity | exact Hlen].
Qed.

(** X15: a lookup that raises outside the handlers of its probe ends
    [run_all_checks] with an exception, whatever the other probes find, and
    bounds what the run has recorded: nothing when the lookup is one of DNS
    Resolution, at most one outcome when it is one of Domain Accessibility,
    at most five when it is one of DNS Server Check.  The report keeps its
    timestamp and status and gains only these outcomes and the names of the
    failed ones among them. *)
Theorem run_all_checks_stops_at_fault (w : World) (r : Report) (e : exn) :
  (dns_resolution_fault w e ->
   exists e', run_all_checks w r = (Raise e', r))
  /\ (blocked_domains_fault w e ->
      exists e' done,
        run_all_checks w r = (Raise e', extended r done)
        /\ (List.length done <= 1)%nat)
  /\ (dns_servers_fault w e ->
      exists e' done,
        run_all_checks w r = (Raise e', extended r done)
        /\ (List.length done <= 5)%nat).
Proof.
  split; [|split].
  - intros Hf.
    destruct (run_all_checks_stops w [] (tl (battery w)) "DNS Resolution"
                (check_dns_resolution w) eq_refl
                (check_dns_resolution_raises w e Hf) r) as (e' & done & Hrun & Hlen).
    destruct done; [|cbn in Hlen; lia]. rewrite extended_nil in Hrun.
    exists e'. exact Hrun.
  - intros Hf.
    apply (run_all_checks_stops w (firstn 1 (battery w)) (skipn 2 (battery w))
             "Domain Accessibility" (check_dns_against_blocked_domains w) eq_refl
             (check_dns_against_blocked_domains_raises w e Hf) r).
  - intros Hf.
    apply (run_all_checks_stops w (firstn 5 (battery w)) (skipn 6 (battery w))
             "DNS Server Check" (check_dns_servers w) eq_refl
             (check_dns_servers_raises w e Hf) r).
Qed.

Lemma faulty_dns_world_fault :
  dns_resolution_fault faulty_dns_world (Exception "unexpected fault").
Proof.
  exists "google.com", "8.8.8.8". repeat split. left. reflexivity.
Qed.

Lemma run_all_checks_stops_at_fault_witness :
  exists e',
    run_all_checks faulty_dns_world (init faulty_dns_world)
    = (Raise e', init faulty_dns_world).
Proof.
  destruct (run_all_checks_stops_at_fault faulty_dns_world (init faulty_dns_world)
              (Exception "unexpected fault")) as [Hstop _].
  exact (Hstop faulty_dns_world_fault).
Defined.

(** ** Witnesses *)

Lemma check_http_vs_https_fails_iff_witness :
  exists detail,
    check_http_vs_https slow_https_world (init slow_https_world)
    = (Ok false,
       recorded "DPI/Throttling Check" false detail (init slow_https_world)).
Proof.
  destruct (check_http_vs_https_fails_iff slow_https_world (init slow_https_world)
              eq_refl) as (status & detail & Hrun & Hiff).
  assert (Hfalse : status = false).
  { apply Hiff. exists 200, 0.5%float, 200, 2%float.
    repeat split; vm_compute; reflexivity. }
  subst status. exists detail. exact Hrun.
Defined.

Lemma calculate_overall_status_clear_iff_no_issue_witness :
  overall_status
    (snd (calculate_overall_status
            (recorded "Packet Loss" false "Ping timeout" (init healthy_world))))
  = "clear"
  <-> issues_found (recorded "Packet Loss" false "Ping timeout" (init healthy_world))
      = [].
Proof.
  apply (calculate_overall_status_clear_iff_no_issue
           (recorded "Packet Loss" false "Ping timeout" (init healthy_world))).
  reflexivity.
Defined.

(** * Faults that leave a probe and the run *)

(** C6, as the claim states it, fails: nine of the ten lookups return an
    address and the tenth raises an OSError that is neither gaierror nor
    timeout; the fraction resolved is 0.9, yet the probe records no outcome,
    passing or failing: the exception leaves it. *)
Lemma check_dns_against_blocked_domains_fault_no_outcome :
  check_dns_against_blocked_domains oserror_lookup_world (init oserror_lookup_world)
  = (Raise (OSError "[Errno 101] Network is unreachable"),
     {| timestamp := "2024-01-01T00:00:00";
        tests := [];
        overall_status := "unknown";
        issues_found := [] |})
  /\ len (filter (resolved oserror_lookup_world) blocked_test_domains) = 9
  /\ len blocked_test_domains = 10.
Proof. vm_compute. repeat split; reflexivity. Qed.

Lemma accessible_count_resolved (w : World) (domains : list string) :
  (forall domain addr,
     In domain domains -> blocked_domains_lookup w domain = Ok addr -> addr <> "") ->
  filter (accessible w) domains = filter (resolved w) domains.
Proof.
  intros Hne. apply filter_ext_in. intros domain Hin.
  unfold accessible, resolved.
  destruct (blocked_domains_lookup w domain) as [addr|e] eqn:Hd; [|reflexivity].
  unfold truthy_str. apply negb_true_iff, String.eqb_neq, (Hne domain addr Hin Hd).
Qed.

(** The counts of the probe and the outcome they give. *)
Lemma check_dns_against_blocked_domains_counts (w : World) (r : Report) :
  let resolved_count := len (filter (resolved w) blocked_test_domains) in
  let failed_count := len (filter (resolution_failed w) blocked_test_domains) in
  let accessible_count := len (filter (accessible w) blocked_test_domains) in
  match check_dns_against_blocked_domains w r with
  | (Ok status, r') =>
      r' = recorded "Domain Accessibility" status
             (str_of_int accessible_count ++ "/10 domains accessible, "
               ++ str_of_int failed_count ++ " blocked") r
      /\ resolved_count + failed_count = 10
      /\ (status = true <-> 10 <= 2 * resolved_count)
      /\ (failed_count = 6 -> status = false)
  | (Raise e, r') =>
      r' = r /\ blocked_domains_fault w e
  end.
Proof.
  cbv zeta.
  unfold check_dns_against_blocked_domains. unfold bind at 1.
  pose proof (blocked_domains_loop_spec w blocked_test_domains 0 0 r) as Hloop.
  pose proof (len_filter_le (resolution_failed w) blocked_test_domains) as Hle.
  destruct (for_each blocked_test_domains _ _ r) as [[[b a]|e] r'].
  - destruct Hloop as (-> & -> & -> & Hsum).
    rewrite !Z.add_0_l.
    fold (is_restricted (len (filter (resolution_failed w) blocked_test_domains))).
    change (len blocked_test_domains) with 10 in *.
    rewrite is_restricted_exact by lia.
    unfold bind. rewrite add_result_spec. cbn [fst snd].
    split; [reflexivity|]. split; [exact Hsum|]. split.
    + rewrite negb_true_iff, Z.ltb_ge. lia.
    + intros H6. rewrite H6. reflexivity.
  - exact Hloop.
Qed.

(** C6, amended: on the ten fixed domains, when every lookup either returns
    an address or raises gaierror or timeout, the Domain Accessibility probe
    records one outcome, and [passed] is true exactly when the lookups that
    returned are at least half of the ten, so that six failures give
    [passed = false]; the returned addresses being non-empty, they are the
    accessible count of the detail.  When a lookup raises anything else, the
    exception leaves the probe and no outcome is recorded. *)
Theorem check_dns_against_blocked_domains_threshold (w : World) (r : Report) :
  let total := len blocked_test_domains in
  let resolved_count := len (filter (resolved w) blocked_test_domains) in
  let failed_count := len (filter (resolution_failed w) blocked_test_domains) in
  let accessible_count := len (filter (accessible w) blocked_test_domains) in
  total = 10
  /\ match check_dns_against_blocked_domains w r with
     | (Ok status, r') =>
         (forall e, ~ blocked_domains_fault w e)
         /\ r' = recorded "Domain Accessibility" status
                  (str_of_int accessible_count ++ "/10 domains accessible, "
                    ++ str_of_int failed_count ++ " blocked") r
         /\ resolved_count + failed_count = total
         /\ (status = true <-> total <= 2 * resolved_count)
         /\ (failed_count = 6 -> status = false)
     | (Raise e, r') =>
         r' = r /\ blocked_domains_fault w e
     end
  /\ (forall e, blocked_domains_fault w e ->
      exists e',
        check_dns_against_blocked_domains w r = (Raise e', r)
        /\ blocked_domains_fault w e')
  /\ ((forall domain addr,
         In domain blocked_test_domains ->
         blocked_domains_lookup w domain = Ok addr -> addr <> "") ->
      accessible_count = resolved_count).
Proof.
  cbv zeta.
  assert (Hprop : forall e, blocked_domains_fault w e ->
            exists e', check_dns_against_blocked_domains w r = (Raise e', r)
                       /\ blocked_domains_fault w e').
  { intros e Hf.
    destruct (check_dns_against_blocked_domains_raises w e Hf r) as [e' He'].
    exists e'. split; [exact He'|].
    pose proof (check_dns_against_blocked_domains_records w r) as Hrec.
    rewrite He' in Hrec. exact (proj2 Hrec). }
  split; [reflexivity|]. split; [|split; [exact Hprop|]].
  2:{ intros Hne. rewrite (accessible_count_resolved w _ Hne). reflexivity. }
  pose proof (check_dns_against_blocked_domains_counts w r) as Hcounts.
  cbv zeta in Hcounts.
  destruct (check_dns_against_blocked_domains w r) as [[status|e] r'] eqn:Hrun.
  - split; [|exact Hcounts].
    intros e Hf. destruct (Hprop e Hf) as (e' & He' & _). discriminate He'.
  - exact Hcounts.
Qed.

Lemma oserror_lookup_world_fault :
  blocked_domains_fault oserror_lookup_world
    (OSError "[Errno 101] Network is unreachable").
Proof.
  exists "reddit.com". repeat split. cbn. tauto.
Qed.

Lemma check_dns_against_blocked_domains_threshold_witness :
  check_dns_against_blocked_domains six_blocked_world (init six_blocked_world)
  = (Ok false,
     mkReport "2024-01-01T00:00:00"
       [mkTest "Domain Accessibility" false "4/10 domains accessible, 6 blocked"]
       "unknown" ["Domain Accessibility"])
  /\ exists e',
       check_dns_against_blocked_domains oserror_lookup_world (init oserror_lookup_world)
       = (Raise e', init oserror_lookup_world).
Proof.
  split.
  - pose proof (check_dns_against_blocked_domains_threshold
                  six_blocked_world (init six_blocked_world)) as H.
    cbv zeta in H. destruct H as (_ & H & _).
    destruct (check_dns_against_blocked_domains six_blocked_world
                (init six_blocked_world)) as [[status|e] r'].
    + destruct H as (_ & -> & _ & _ & H6).
      rewrite H6 by (vm_compute; reflexivity).
      vm_compute. reflexivity.
    + destruct H as (_ & domain & Hin & Hraise & Hg & _).
      exfalso. revert Hraise Hg. cbn in Hin.
      repeat (destruct Hin as [<-|Hin]; [vm_compute; try discriminate;
                                          intros [= <-]; discriminate|]).
      contradiction.
  - pose proof (check_dns_against_blocked_domains_threshold
                  oserror_lookup_world (init oserror_lookup_world)) as H.
    cbv zeta in H. destruct H as (_ & _ & Hprop & _).
    destruct (Hprop _ oserror_lookup_world_fault) as (e' & Hrun & _).
    exists e'. exact Hrun.
Defined.

(** A lookup that raises outside the handlers of its probe ends the run. *)
Lemma unhandled_fault_raises (w : World) (r : Report) (e : exn) :
  unhandled_fault w e ->
  exists e' r', run_all_checks w r = (Raise e', r').
Proof.
  intros [Hf|[Hf|Hf]].
  - destruct (run_all_checks_stops w [] (tl (battery w)) "DNS Resolution"
                (check_dns_resolution w) eq_refl
                (check_dns_resolution_raises w e Hf) r) as (e' & done & Hrun & _).
    eauto.
  - destruct (run_all_checks_stops w (firstn 1 (battery w)) (skipn 2 (battery w))
                "Domain Accessibility" (check_dns_against_blocked_domains w) eq_refl
                (check_dns_against_blocked_domains_raises w e Hf) r)
      as (e' & done & Hrun & _).
    eauto.
  - destruct (run_all_checks_stops w (firstn 5 (battery w)) (skipn 6 (battery w))
                "DNS Server Check" (check_dns_servers w) eq_refl
                (check_dns_servers_raises w e Hf) r) as (e' & done & Hrun & _).
    eauto.
Qed.

(** C3, amended: [run_all_checks] has no handler of its own; an exception is
    caught only by the [except] clauses inside a probe.  An exception raised
    by a lookup of DNS Resolution or Domain Accessibility that is neither
    gaierror nor timeout, or by a lookup of DNS Server Check that is not an
    OSError, propagates out of [run_all_checks]: the run ends with an
    exception, the outcomes of the probes that ran before stay recorded, the
    raising probe and the later ones record nothing, and the status is not
    computed.  No other exception of a network or subprocess call leaves the
    run: those of Port Connectivity, HTTP Response Time, MTU Check, Packet
    Loss and the DPI probe are caught inside the probe.  A run that
    completes met no such lookup and returns the report with the eight
    outcomes in battery order. *)
Theorem run_all_checks_fault_handling (w : World) (r : Report) :
  (forall e, unhandled_fault w e ->
     exists e' r',
       run_all_checks w r = (Raise e', r')
       /\ unhandled_fault w e'
       /\ overall_status r' = overall_status r
       /\ exists done rest,
            tests r' = (tests r ++ done)%list
            /\ battery_names w = (map name done ++ rest)%list
            /\ rest <> [])
  /\ match run_all_checks w r with
     | (Ok results, r') =>
         results = r'
         /\ map name (tests r') = (map name (tests r) ++ battery_names w)%list
         /\ (forall e, ~ unhandled_fault w e)
     | (Raise e, r') =>
         unhandled_fault w e
         /\ overall_status r' = overall_status r
         /\ exists done rest,
              tests r' = (tests r ++ done)%list
              /\ battery_names w = (map name done ++ rest)%list
              /\ rest <> []
     end
  /\ Forall (fun entry => records_outcome (fst entry) (snd entry)) (battery w).
Proof.
  pose proof (run_all_checks_spec w r) as Hspec.
  split; [|split; [|apply battery_records]].
  - intros e Hf. destruct (unhandled_fault_raises w r e Hf) as (e' & r' & Hrun).
    rewrite Hrun in Hspec. exists e', r'. split; [exact Hrun | exact Hspec].
  - destruct (run_all_checks w r) as [[results|e] r'] eqn:Hrun.
    + destruct Hspec as (-> & Hnames & _).
      split; [reflexivity|]. split; [exact Hnames|].
      intros e Hf. destruct (unhandled_fault_raises w r e Hf) as (e' & r1 & Hraise).
      rewrite Hraise in Hrun. discriminate Hrun.
    + exact Hspec.
Qed.

Lemma run_all_checks_fault_handling_witness :
  (exists e' r',
     run_all_checks faulty_dns_world (init faulty_dns_world) = (Raise e', r')
     /\ tests r' = []
     /\ overall_status r' = "unknown")
  /\ (exists results,
        run_all_checks healthy_world (init healthy_world) = (Ok results, results)
        /\ map name (tests results)
           = [ "DNS Resolution"; "Domain Accessibility"; "Port Connectivity";
               "HTTP Response Time"; "MTU Check"; "DNS Server Check"; "Packet Loss";
               "DPI/Throttling Check" ]).
Proof.
  split.
  - destruct (run_all_checks_fault_handling faulty_dns_world (init faulty_dns_world))
      as (Hprop & _).
    destruct (Hprop (Exception "unexpected fault"))
      as (e' & r' & Hrun & _ & Hstatus & _).
    { left. exact faulty_dns_world_fault. }
    exists e', r'. split; [exact Hrun|]. split; [|exact Hstatus].
    revert Hrun. vm_compute. intros [= _ <-]. reflexivity.
  - destruct (run_all_checks_fault_handling healthy_world (init healthy_world))
      as (_ & Hrun & _).
    destruct (run_all_checks healthy_world (init healthy_world))
      as [[results|e] r'].
    + destruct Hrun as (-> & Hnames & _). exists r'. split; [reflexivity | exact Hnames].
    + destruct (healthy_world_no_unhandled_fault e (proj1 Hrun)).
Defined.
